(** * vLLM serving control layer: request wrappers and single-process executors

    A shallow embedding of

    - [vllm/entrypoints/utils.py]: [listen_for_disconnect],
      [with_cancellation], [decrement_server_load], [load_aware_call];
    - [vllm/executor/uniproc_executor.py]: [UniProcExecutor] and
      [ExecutorWithExternalLauncher].

    Python code that raises is modelled in a state-and-error monad; an
    [await] is a point where the state may have been changed by other tasks,
    so every coroutine is cut into the segments that run between two awaits. *)

From Stdlib Require Import Floats Ascii.
From stdpp Require Import gmap strings list.

Open Scope Z_scope.

(** ** Python exceptions *)

(** The exceptions the two files can raise or let through.  [OtherError]
    stands for whatever a handler or a worker raises; its flag says whether
    the class derives from [Exception] ([KeyboardInterrupt], [SystemExit] and
    the like do not). *)
Inductive exn : Type :=
| ValueError (msg : string)
| KeyError (key : string)
| AttributeError (attr : string)
| AssertionError (msg : string)
| RuntimeError (msg : string)
| TypeError (msg : string)
| CancelledError
| OtherError (derives_Exception : bool) (tag : nat).

#[global] Instance exn_eq_dec : EqDecision exn.
Proof. solve_decision. Defined.

(** [isinstance(e, Exception)], which is what [except Exception:] tests.
    [asyncio.CancelledError] derives from [BaseException] only. *)
Definition is_Exception (e : exn) : bool :=
  match e with
  | CancelledError => false
  | OtherError b _ => b
  | _ => true
  end.

(** ** Error monad and state-and-error monad *)

#[global] Instance raising_ret : MRet (sum exn) := λ A a, inr a.

#[global] Instance raising_bind : MBind (sum exn) :=
  λ A B f m, match m with inl e => inl e | inr a => f a end.

Definition M (S A : Type) : Type := S → (exn + A) * S.

#[global] Instance M_ret {S} : MRet (M S) := λ A a s, (inr a, s).

#[global] Instance M_bind {S} : MBind (M S) :=
  λ A B f m s,
    match m s with
    | (inl e, s') => (inl e, s')
    | (inr a, s') => f a s'
    end.

Definition raise {S A} (e : exn) : M S A := λ s, (inl e, s).

Definition gets {S A} (f : S → A) : M S A := λ s, (inr (f s), s).

Definition modify {S} (f : S → S) : M S unit := λ s, (inr tt, f s).

(** [try: body except: handler]: the handler runs in the state the body
    left behind. *)
Definition try_except {S A} (body : M S A) (handler : exn → M S A) : M S A :=
  λ s,
    match body s with
    | (inl e, s') => handler e s'
    | (inr a, s') => (inr a, s')
    end.

(** [assert cond, msg] *)
Definition py_assert {S} (cond : bool) (msg : string) : M S unit :=
  if cond then mret tt else raise (AssertionError msg).

(** ** vllm/entrypoints/utils.py *)

Module Entrypoints.

(** What a wrapper finds among its call arguments: [None], a FastAPI
    [Request], or some other object (which has no [app] attribute and no
    [receive] method). *)
Inductive pyval : Type :=
| PyNone
| PyRequest (rid : nat)
| PyObj (tag : nat).

#[global] Instance pyval_eq_dec : EqDecision pyval.
Proof. solve_decision. Defined.

(** Callables that end up in a background task: [decrement_server_load],
    a callable of the handler that returns without touching the load
    counter, or a callable of the handler that raises. *)
Inductive callable : Type :=
| decrement_server_load_fn
| user_callable (tag : nat)
| failing_callable (tag : nat) (e : exn).

#[global] Instance callable_eq_dec : EqDecision callable.
Proof. solve_decision. Defined.

(** [starlette.background.BackgroundTask(func, *args, **kwargs)] *)
Record BackgroundTask : Type := mkBackgroundTask {
  func : callable;
  task_args : list pyval;
  task_kwargs : list (string * pyval)
}.

#[global] Instance BackgroundTask_eq_dec : EqDecision BackgroundTask.
Proof. solve_decision. Defined.

(** [response.background]: [None], one [BackgroundTask], or a
    [BackgroundTasks] holding a list of them. *)
Inductive background : Type :=
| NoBackground
| SingleTask (t : BackgroundTask)
| BackgroundTasks (tasks : list BackgroundTask).

#[global] Instance background_eq_dec : EqDecision background.
Proof. solve_decision. Defined.

Inductive response_class : Type := JSONResponse | StreamingResponse.

#[global] Instance response_class_eq_dec : EqDecision response_class.
Proof. solve_decision. Defined.

(** What a handler returns: [None], an instance of one of the two classes
    that [load_aware_call] tests for, a starlette [Response] of another
    class (it has a [background] as well), or anything else. *)
Inductive result : Type :=
| RNone
| Response (cls : response_class) (body : nat) (bg : background)
| OtherResult (tag : nat)
| PlainResponse (body : nat) (bg : background).

#[global] Instance result_eq_dec : EqDecision result.
Proof. solve_decision. Defined.

(** How a coroutine ends. *)
Inductive outcome : Type :=
| Return (r : result)
| Raise (e : exn).

#[global] Instance outcome_eq_dec : EqDecision outcome.
Proof. solve_decision. Defined.

Definition outcome_of (r : exn + result) : outcome :=
  match r with inl e => Raise e | inr v => Return v end.

(** [request.app.state]: one object shared by all requests.  An attribute
    that was never set is [None] here. *)
Record app_state : Type := mkState {
  enable_server_load_tracking : option bool;
  server_load_metrics : option Z
}.

#[global] Instance app_state_eq_dec : EqDecision app_state.
Proof. solve_decision. Defined.

(** [getattr(state, "enable_server_load_tracking", False)] *)
Definition tracking_enabled (st : app_state) : bool :=
  default false (enable_server_load_tracking st).

(** [hasattr(state, "server_load_metrics")] *)
Definition has_server_load_metrics (st : app_state) : bool :=
  match server_load_metrics st with Some _ => true | None => false end.

Definition set_server_load_metrics (n : Z) (st : app_state) : app_state :=
  {| enable_server_load_tracking := enable_server_load_tracking st;
     server_load_metrics := Some n |}.

(** [state.server_load_metrics += d]; reading a missing attribute raises. *)
Definition iadd_server_load_metrics (d : Z) : M app_state unit :=
  λ st,
    match server_load_metrics st with
    | Some n => (inr tt, set_server_load_metrics (n + d) st)
    | None => (inl (AttributeError "server_load_metrics"), st)
    end.

(** [raw_request.app.state] exists on a [Request] only. *)
Definition app_state_of (request : pyval) : M app_state unit :=
  match request with
  | PyRequest _ => mret tt
  | _ => raise (AttributeError "app")
  end.

(** *** listen_for_disconnect *)

(** An ASGI message; only its ["type"] entry is read. *)
Record message : Type := mkMessage { msg_type : string }.

(** The body of the [if message["type"] == "http.disconnect":] branch. *)
Definition on_disconnect (st : app_state) : app_state :=
  if tracking_enabled st && has_server_load_metrics st
  then match server_load_metrics st with
       | Some n => set_server_load_metrics (n - 1) st
       | None => st
       end
  else st.

(** Whether a coroutine has returned or is still suspended at an [await]. *)
Inductive progress : Type := Finished | Suspended.

(** The loop of [listen_for_disconnect] over the messages that
    [request.receive()] delivers: it returns at the first disconnect, and is
    suspended in [receive] when the messages run out. *)
Fixpoint listen_for_disconnect (messages : list message) (st : app_state)
  : progress * app_state :=
  match messages with
  | [] => (Suspended, st)
  | m :: rest =>
      if String.eqb (msg_type m) "http.disconnect"
      then (Finished, on_disconnect st)
      else listen_for_disconnect rest st
  end.

(** *** with_cancellation *)

Inductive task : Type := handler_task | cancellation_task.

#[global] Instance task_eq_dec : EqDecision task.
Proof. solve_decision. Defined.

(** [args[1] if len(args) > 1 else kwargs["raw_request"]] *)
Definition guard_request (args : list pyval) (kwargs : gmap string pyval)
  : exn + pyval :=
  match args !! 1%nat with
  | Some r => inr r
  | None =>
      match kwargs !! "raw_request" with
      | Some r => inr r
      | None => inl (KeyError "raw_request")
      end
  end.

(** [asyncio.wait(fs, return_when=FIRST_COMPLETED)].  [finished] lists the
    tasks that have completed by the time the waiting coroutine runs again,
    in the order in which they completed.  The call does not return while
    none of [fs] has completed; when it returns, [done] are the completed
    tasks of [fs] and [pending] the others.  More than one task may be done:
    the waiter is woken through the event loop, and a second task can finish
    before the waiter's turn comes. *)
Definition asyncio_wait (fs finished : list task)
  : option (list task * list task) :=
  let done := filter (λ t, t ∈ finished) fs in
  let pending := filter (λ t, t ∉ finished) fs in
  match done with
  | [] => None
  | _ => Some (done, pending)
  end.

(** What one call of the wrapper did: the tasks it created, the tasks it
    cancelled, and how it ended. *)
Record guard_report : Type := mkReport {
  created : list task;
  cancelled : list task;
  returned : outcome
}.

#[global] Instance guard_report_eq_dec : EqDecision guard_report.
Proof. solve_decision. Defined.

(** The wrapper of [with_cancellation].  [handler_result] is what
    [handler_task.result()] yields once that task is done; [None] stands for
    a wrapper that is still suspended in [asyncio.wait]. *)
Definition with_cancellation (handler_result : outcome)
    (args : list pyval) (kwargs : gmap string pyval) (finished : list task)
  : option guard_report :=
  match guard_request args kwargs with
  | inl e => Some {| created := []; cancelled := []; returned := Raise e |}
  | inr request =>
      '(done, pending) ← asyncio_wait [handler_task; cancellation_task] finished;
      Some {| created := [handler_task; cancellation_task];
              cancelled := pending;
              returned := if decide (handler_task ∈ done)
                          then handler_result
                          else Return RNone |}
  end.

(** *** decrement_server_load and load_aware_call *)

Definition decrement_server_load (request : pyval) : M app_state unit :=
  app_state_of request;; iadd_server_load_metrics (-1).

(** [kwargs.get("raw_request", args[1] if len(args) > 1 else None)] *)
Definition raw_request_of (args : list pyval) (kwargs : gmap string pyval)
  : pyval :=
  default (default PyNone (args !! 1%nat)) (kwargs !! "raw_request").

Definition decrement_task (raw_request : pyval) : BackgroundTask :=
  {| func := decrement_server_load_fn;
     task_args := [raw_request];
     task_kwargs := [] |}.

(** The three branches on [response.background]. *)
Definition add_decrement_task (raw_request : pyval) (bg : background)
  : background :=
  match bg with
  | NoBackground => SingleTask (decrement_task raw_request)
  | BackgroundTasks tasks =>
      BackgroundTasks (tasks ++ [decrement_task raw_request])
  | SingleTask t =>
      BackgroundTasks
        ([] ++ [mkBackgroundTask (func t) (task_args t) (task_kwargs t)]
            ++ [decrement_task raw_request])
  end.

(** The wrapper after [response = await func(...)] has returned. *)
Definition after_handler (raw_request : pyval) (response : result)
  : M app_state result :=
  match response with
  | Response cls body bg =>
      mret (Response cls body (add_decrement_task raw_request bg))
  | _ => iadd_server_load_metrics (-1);; mret response
  end.

(** The [except Exception:] clause around the await. *)
Definition on_handler_error (e : exn) : M app_state result :=
  if is_Exception e
  then iadd_server_load_metrics (-1);; raise e
  else raise e.

(** The wrapper of [load_aware_call].  The handler [func] is a computation
    on the shared state: whatever happens to the state while the wrapper is
    suspended in [await func(...)] is part of it. *)
Definition load_aware_call
    (func : list pyval → gmap string pyval → M app_state result)
    (args : list pyval) (kwargs : gmap string pyval) : M app_state result :=
  let raw_request := raw_request_of args kwargs in
  match raw_request with
  | PyNone =>
      raise (ValueError "raw_request required when server load tracking is enabled")
  | _ =>
      app_state_of raw_request;;
      enabled ← gets tracking_enabled;
      if negb enabled then func args kwargs
      else
        present ← gets has_server_load_metrics;
        (if negb present then modify (set_server_load_metrics 0) else mret tt);;
        iadd_server_load_metrics 1;;
        response ← try_except (func args kwargs) on_handler_error;
        after_handler raw_request response
  end.

(** *** The wrapper of load_aware_call as a task

    The wrapper suspends once, in [await func(...)].  [load_aware_enter] is
    what it runs before that await, [load_aware_resume] what it runs when
    the await ends (by a return, by an exception of [func], or by the
    [CancelledError] that cancelling the task throws into it). *)

Inductive entered : Type := Untracked | Tracked.

#[global] Instance entered_eq_dec : EqDecision entered.
Proof. solve_decision. Defined.

Definition load_aware_enter (args : list pyval) (kwargs : gmap string pyval)
  : M app_state entered :=
  let raw_request := raw_request_of args kwargs in
  match raw_request with
  | PyNone =>
      raise (ValueError "raw_request required when server load tracking is enabled")
  | _ =>
      app_state_of raw_request;;
      enabled ← gets tracking_enabled;
      if negb enabled then mret Untracked
      else
        present ← gets has_server_load_metrics;
        (if negb present then modify (set_server_load_metrics 0) else mret tt);;
        iadd_server_load_metrics 1;;
        mret Tracked
  end.

Definition load_aware_resume (raw_request : pyval) (mode : entered)
    (awaited : outcome) : M app_state result :=
  match mode, awaited with
  | Untracked, Return r => mret r
  | Untracked, Raise e => raise e
  | Tracked, Return r => after_handler raw_request r
  | Tracked, Raise e => on_handler_error e
  end.

(** *** Running a response's background after it has been sent

    Starlette awaits [response.background()] once the response is delivered:
    a [BackgroundTask] calls its function, a [BackgroundTasks] calls its
    tasks in list order ([for task in self.tasks: await task()]), so a task
    that raises ends the loop and the tasks after it are not called. *)

Definition tasks_of (bg : background) : list BackgroundTask :=
  match bg with
  | NoBackground => []
  | SingleTask t => [t]
  | BackgroundTasks tasks => tasks
  end.

Definition call_task (t : BackgroundTask) : M app_state unit :=
  match func t with
  | decrement_server_load_fn =>
      match task_args t with
      | [request] => decrement_server_load request
      | _ => raise (TypeError "decrement_server_load() takes 1 positional argument")
      end
  | user_callable _ => mret tt
  | failing_callable _ e => raise e
  end.

Fixpoint call_tasks (tasks : list BackgroundTask) : M app_state unit :=
  match tasks with
  | [] => mret tt
  | t :: rest => call_task t;; call_tasks rest
  end.

Definition run_background (bg : background) : M app_state unit :=
  call_tasks (tasks_of bg).

(** [response.background] of what the route returned, when that is a
    starlette response. *)
Definition background_of (r : result) : option background :=
  match r with
  | Response _ _ bg | PlainResponse _ bg => Some bg
  | _ => None
  end.

Definition response_background (o : outcome) : option background :=
  match o with
  | Return r => background_of r
  | Raise _ => None
  end.

(** *** The server: many guarded, tracked requests on one event loop

    Every request is served by [with_cancellation(load_aware_call(func))],
    called the way FastAPI calls a route: no positional arguments and the
    request under the keyword [raw_request].  Between two awaits a task runs
    alone; an event below is one such uninterrupted run. *)

Inductive handler_status : Type :=
| HAwaiting (mode : entered)
| HDone (o : outcome)
| HCancelled.

Inductive listener_status : Type := LListening | LDone | LCancelled.

Record request_state : Type := mkRequest {
  handler : handler_status;
  listener : listener_status;
  guard : option outcome;
  finalized : bool
}.

Record server : Type := mkServer {
  state : app_state;
  requests : gmap nat request_state
}.

Inductive event : Type :=
| Arrive (rid : nat)
| HandlerEnds (rid : nat) (awaited : outcome)
| Receive (rid : nat) (m : message)
| GuardResumes (rid : nat)
| Finalize (rid : nat).

Definition route_kwargs (rid : nat) : gmap string pyval :=
  {["raw_request" := PyRequest rid]}.

(** The tasks of a request that are done, for [asyncio.wait]. *)
Definition finished_tasks (r : request_state) : list task :=
  (match handler r with HDone _ => [handler_task] | _ => [] end)
  ++ (match listener r with LDone => [cancellation_task] | _ => [] end).

(** [handler_task.result()]; it is only asked for when the task is done. *)
Definition task_result (r : request_state) : outcome :=
  match handler r with HDone o => o | _ => Raise CancelledError end.

Definition step (ev : event) (s : server) : option server :=
  match ev with
  | Arrive rid =>
      match requests s !! rid with
      | Some _ => None
      | None =>
          (* both tasks are created; the handler task runs to its await *)
          let '(entry, st) := load_aware_enter [] (route_kwargs rid) (state s) in
          let h := match entry with
                   | inl e => HDone (Raise e)
                   | inr mode => HAwaiting mode
                   end in
          Some (mkServer st (<[rid := mkRequest h LListening None false]> (requests s)))
      end
  | HandlerEnds rid awaited =>
      r ← requests s !! rid;
      match handler r with
      | HAwaiting mode =>
          let '(res, st) :=
            load_aware_resume (PyRequest rid) mode awaited (state s) in
          Some (mkServer st
                  (<[rid := mkRequest (HDone (outcome_of res)) (listener r)
                                      (guard r) (finalized r)]> (requests s)))
      | _ => None
      end
  | Receive rid m =>
      r ← requests s !! rid;
      match listener r with
      | LListening =>
          let '(p, st) := listen_for_disconnect [m] (state s) in
          let l := match p with Finished => LDone | Suspended => LListening end in
          Some (mkServer st
                  (<[rid := mkRequest (handler r) l (guard r) (finalized r)]>
                     (requests s)))
      | _ => None
      end
  | GuardResumes rid =>
      r ← requests s !! rid;
      match guard r with
      | Some _ => None
      | None =>
          rep ← with_cancellation (task_result r) [] (route_kwargs rid)
                  (finished_tasks r);
          (* a cancelled handler task gets CancelledError at its await *)
          let '(h, st) :=
            match handler r with
            | HAwaiting mode =>
                if decide (handler_task ∈ cancelled rep)
                then (HCancelled,
                      snd (load_aware_resume (PyRequest rid) mode
                             (Raise CancelledError) (state s)))
                else (handler r, state s)
            | _ => (handler r, state s)
            end in
          let l := match listener r with
                   | LListening =>
                       if decide (cancellation_task ∈ cancelled rep)
                       then LCancelled else LListening
                   | other => other
                   end in
          Some (mkServer st
                  (<[rid := mkRequest h l (Some (returned rep)) (finalized r)]>
                     (requests s)))
      end
  | Finalize rid =>
      r ← requests s !! rid;
      match guard r ≫= response_background, finalized r with
      | Some bg, false =>
          (* an exception of a task goes to the server; the response is out *)
          let '(_, st) := run_background bg (state s) in
          Some (mkServer st
                  (<[rid := mkRequest (handler r) (listener r) (guard r) true]>
                     (requests s)))
      | _, _ => None
      end
  end.

Fixpoint run (evs : list event) (s : server) : option server :=
  match evs with
  | [] => Some s
  | ev :: rest => s' ← step ev s; run rest s'
  end.

(** A request is through once its wrapper has returned and, when it
    returned a response, the background of that response has run. *)
Definition settled (r : request_state) : bool :=
  match guard r with
  | None => false
  | Some o =>
      match response_background o with
      | Some _ => finalized r
      | None => true
      end
  end.

Definition all_settled (s : server) : bool :=
  bool_decide (map_Forall (λ _ r, settled r = true) (requests s)).

(** *** Vocabulary for the properties below *)

(** The state in which the wrapper of [load_aware_call] awaits a tracked
    handler: the counter, created at 0 if it was missing, and incremented. *)
Definition incremented (st : app_state) : app_state :=
  set_server_load_metrics (default 0 (server_load_metrics st) + 1) st.



(** A tie: the watcher has seen the disconnect and the handler has finished
    as well, so both tasks are done when [asyncio.wait] returns. *)
Definition has_tie (r : request_state) : bool :=
  match handler r, listener r with
  | HDone _, LDone => true
  | _, _ => false
  end.

Definition tie_free (s : server) : Prop :=
  map_Forall (λ _ r, has_tie r = false) (requests s).

#[global] Instance tie_free_dec (s : server) : Decision (tie_free s).
Proof. unfold tie_free. apply _. Defined.

(** Handlers as the wrappers expect them: an exception they raise derives
    from [Exception], and a response they return does not already carry a
    [decrement_server_load] task. *)
Definition plain_event (ev : event) : Prop :=
  match ev with
  | HandlerEnds _ (Raise e) => is_Exception e = true
  | HandlerEnds _ (Return (Response _ _ bg))
  | HandlerEnds _ (Return (PlainResponse _ bg)) =>
      Forall (λ t, func t ≠ decrement_server_load_fn) (tasks_of bg)
  | _ => True
  end.

(** A task of the handler that returns, and leaves the counter alone. *)
Definition returns_quietly (t : BackgroundTask) : Prop :=
  match func t with
  | user_callable _ => True
  | _ => False
  end.

#[global] Instance returns_quietly_dec (t : BackgroundTask)
  : Decision (returns_quietly t).
Proof. unfold returns_quietly. destruct (func t); apply _. Defined.





(** *** Sample inputs *)

Definition disconnect : message := mkMessage "http.disconnect".

Definition body_chunk : message := mkMessage "http.request".

Definition tracking_off : app_state :=
  {| enable_server_load_tracking := Some false; server_load_metrics := None |}.

Definition tracking_on : app_state :=
  {| enable_server_load_tracking := Some true; server_load_metrics := Some 0 |}.

(** A handler that leaves a mark on the state, to tell whether it ran. *)
Definition marking_handler
  : list pyval → gmap string pyval → M app_state result :=
  λ _ _, modify (set_server_load_metrics 99);; mret (OtherResult 1).

Definition log_task : BackgroundTask :=
  {| func := user_callable 1; task_args := [PyObj 5]; task_kwargs := [] |}.

Definition flush_task : BackgroundTask :=
  {| func := user_callable 2; task_args := []; task_kwargs := [("force", PyObj 1)] |}.

(** A server on which tracking is enabled and no request was seen yet. *)
Definition fresh_server : server :=
  mkServer {| enable_server_load_tracking := Some true;
              server_load_metrics := None |} ∅.

Definition counter_after (evs : list event) : option (option Z) :=
  s ← run evs fresh_server; Some (server_load_metrics (state s)).

(** The disconnect arrives while the handler is about to finish, and the
    handler finishes before the wrapper of [with_cancellation] is run
    again. *)
Definition tie : list event :=
  [Arrive 0; Receive 0 disconnect; HandlerEnds 0 (Return (OtherResult 1));
   GuardResumes 0].

End Entrypoints.

(** ** vllm/executor/uniproc_executor.py *)

Module Executor.

(** The two entries of [vllm_config] that this file reads:
    [device_config.device.__str__()] and [scheduler_config.delay_factor]. *)
Record vllm_config : Type := mkConfig {
  device : string;
  delay_factor : float
}.

(** [dict(vllm_config=..., local_rank=..., rank=...,
    distributed_init_method=..., is_driver_worker=...)] *)
Record init_kwargs : Type := mkInitKwargs {
  kw_vllm_config : vllm_config;
  local_rank : Z;
  rank : Z;
  distributed_init_method : string;
  is_driver_worker : bool
}.

(** [ReconfigureDistributedRequest]; only this field is read here. *)
Record ReconfigureDistributedRequest : Type := mkReconfigure {
  new_data_parallel_rank : Z
}.

(** [method: Union[str, Callable]] *)
Inductive method : Type :=
| MethodName (name : string)
| MethodCallable (tag : nat).

Inductive rpc_arg : Type :=
| InitKwargs (all_kwargs : list init_kwargs)
| Reconfigure (req : ReconfigureDistributedRequest)
| Arg (tag : nat).

(** One invocation of a method of the worker. *)
Record rpc_call : Type := mkCall {
  call_method : method;
  call_args : list rpc_arg;
  call_kwargs : list (string * rpc_arg)
}.

(** The worker behind the executor ([vllm.worker.worker_base] and
    [vllm.utils.run_method], neither in this file): how a wrapper is built,
    and what calling a method on it answers and does to it. *)
Class WorkerAPI (W answer : Type) : Type := {
  WorkerWrapperBase : vllm_config → Z → W;
  run_method : W → method → list rpc_arg → list (string * rpc_arg)
               → (exn + answer) * W
}.

(** What the process provides: the address found by
    [get_distributed_init_method(get_ip(), get_open_port())], the builtins
    [int] ([None] for a [ValueError]) and [repr] on strings, [vllm.envs],
    [os.environ] and the value of
    [ReconfigureRankType.SHUTDOWN_CURRENT_RANK]. *)
Class Host : Type := {
  local_init_method : string;
  int : string → option Z;
  repr : string → string;
  VLLM_USE_V1 : bool;
  VLLM_ENABLE_V1_MULTIPROCESSING : bool;
  environ : gmap string string;
  SHUTDOWN_CURRENT_RANK : Z
}.

(** The executor object.  [driver_worker] is unset until an
    [_init_executor] assigns it.  [trace] is the history of the calls made
    on the worker, kept to state what was invoked and in which order;
    [is_shutdown] is for [ExecutorBase.shutdown] to mark, no method of this
    file reads either. *)
Record executor (W : Type) : Type := mkExecutor {
  self_vllm_config : vllm_config;
  driver_worker : option W;
  is_shutdown : bool;
  trace : list rpc_call
}.

Arguments mkExecutor {W} _ _ _ _.
Arguments self_vllm_config {W} _.
Arguments driver_worker {W} _.
Arguments is_shutdown {W} _.
Arguments trace {W} _.

(** What the base class [ExecutorBase] contributes to the methods below;
    it is defined in [vllm/executor/executor_base.py]. *)
Class ExecutorBase (W : Type) : Type := {
  shutdown : M (executor W) unit
}.

(** Modelled from the spec: [ExecutorBase.shutdown], which lives in
    [vllm/executor/executor_base.py] and not in this file.  The spec has the
    executor go to its terminal SHUTDOWN state; the worker and the history
    stay as they are. *)
Definition mark_shutdown {W : Type} : M (executor W) unit :=
  modify (λ self,
    mkExecutor (self_vllm_config self) (driver_worker self) true (trace self)).

(** [str.split(sep)] for a one-character separator. *)
Fixpoint split (sep : Ascii.ascii) (s : string) : list string :=
  match s with
  | EmptyString => [EmptyString]
  | String c rest =>
      if Ascii.eqb c sep then EmptyString :: split sep rest
      else match split sep rest with
           | part :: parts => String c part :: parts
           | [] => [String c EmptyString]
           end
  end.

(** *** UniProcExecutor *)

Module UniProcExecutor.

Section Methods.

Context {W answer : Type} `{!WorkerAPI W answer} `{!Host} `{!ExecutorBase W}.

Definition set_driver_worker (w : W) (self : executor W) : executor W :=
  mkExecutor (self_vllm_config self) (Some w) (is_shutdown self) (trace self).

(** A method call on [self.driver_worker]: through [run_method] in
    [collective_rpc], and directly in [reinitialize_distributed]. *)
Definition call_driver_worker (m : method) (args : list rpc_arg)
    (kwargs : list (string * rpc_arg)) : M (executor W) answer :=
  λ self,
    match driver_worker self with
    | None => (inl (AttributeError "driver_worker"), self)
    | Some w =>
        let '(r, w') := run_method w m args kwargs in
        (r, mkExecutor (self_vllm_config self) (Some w') (is_shutdown self)
              (trace self ++ [mkCall m args kwargs]))
    end.

(** [int(s)] *)
Definition py_int {S} (s : string) : M S Z :=
  match int s with
  | Some z => mret z
  | None =>
      raise (ValueError ("invalid literal for int() with base 10: " +:+ repr s))
  end.

(** [os.environ[key]] *)
Definition environ_get {S} (key : string) : M S string :=
  match environ !! key with
  | Some v => mret v
  | None => raise (KeyError key)
  end.

Definition collective_rpc (m : method) (timeout : option float)
    (args : list rpc_arg) (kwargs : option (list (string * rpc_arg)))
  : M (executor W) (list answer) :=
  let kwargs := default [] kwargs in
  answer ← call_driver_worker m args kwargs;
  mret [answer].

Definition _init_executor : M (executor W) unit :=
  vllm_config ← gets self_vllm_config;
  modify (set_driver_worker (WorkerWrapperBase vllm_config 0));;
  let distributed_init_method := local_init_method in
  let device_info := split ":"%char (device vllm_config) in
  local_rank ← (match device_info !! 1%nat with
                | Some index => py_int index
                | None => mret 0
                end);
  let rank := 0 in
  let is_driver_worker := true in
  let kwargs :=
    mkInitKwargs vllm_config local_rank rank distributed_init_method
                 is_driver_worker in
  collective_rpc (MethodName "init_worker") None [InitKwargs [kwargs]] None;;
  collective_rpc (MethodName "init_device") None [] None;;
  collective_rpc (MethodName "load_model") None [] None;;
  mret tt.

Definition check_health : M (executor W) unit := mret tt.

Definition reinitialize_distributed
    (reconfig_request : ReconfigureDistributedRequest) : M (executor W) unit :=
  call_driver_worker (MethodName "reinitialize_distributed")
                     [Reconfigure reconfig_request] [];;
  if new_data_parallel_rank reconfig_request =? SHUTDOWN_CURRENT_RANK
  then shutdown
  else mret tt.

End Methods.
End UniProcExecutor.

(** *** ExecutorWithExternalLauncher, a subclass of UniProcExecutor *)

Module ExecutorWithExternalLauncher.
Import UniProcExecutor.

Section Methods.

Context {W answer : Type} `{!WorkerAPI W answer} `{!Host} `{!ExecutorBase W}.

Definition delay_factor_message : string :=
  "ExecutorWithExternalLauncher needs deterministic execution, so itdoes not support delay_factor in scheduling".

Definition multiprocessing_message : string :=
  "To get deterministic execution in V1, please set VLLM_ENABLE_V1_MULTIPROCESSING=0".

Definition _init_executor : M (executor W) unit :=
  vllm_config ← gets self_vllm_config;
  py_assert (PrimFloat.eqb (delay_factor vllm_config) 0%float)
            delay_factor_message;;
  (if VLLM_USE_V1
   then py_assert (negb VLLM_ENABLE_V1_MULTIPROCESSING) multiprocessing_message
   else mret tt);;
  modify (set_driver_worker (WorkerWrapperBase vllm_config 0));;
  let distributed_init_method := "env://" in
  rank ← (environ_get "RANK" ≫= py_int);
  local_rank ← (environ_get "LOCAL_RANK" ≫= py_int);
  let is_driver_worker := true in
  let kwargs :=
    mkInitKwargs vllm_config local_rank rank distributed_init_method
                 is_driver_worker in
  collective_rpc (MethodName "init_worker") None [InitKwargs [kwargs]] None;;
  collective_rpc (MethodName "init_device") None [] None;;
  collective_rpc (MethodName "load_model") None [] None;;
  mret tt.

End Methods.

(** [torch.tensor([v], device="cpu", dtype=torch.int64)]: a Python integer
    outside the 64-bit range is refused. *)
Definition int64_tensor (v : Z) : exn + Z :=
  if (- 2 ^ 63 <=? v) && (v <? 2 ^ 63) then inr v
  else inl (RuntimeError "Overflow when unpacking long").

(** [dist.all_reduce(tensor, group, op=ReduceOp.MIN)] as one rank sees it:
    its tensor ends up holding the minimum of its own value and of the
    values the other ranks of the group contributed. *)
Definition all_reduce_MIN (tensor : Z) (others : list Z) : Z :=
  foldr Z.min tensor others.

(** The two tensors a rank builds from its report before its first
    [all_reduce]. *)
Definition tensors_of (report : Z * Z) : exn + Z * Z :=
  a_tensor ← int64_tensor report.1;
  b_tensor ← int64_tensor report.2;
  inr (a_tensor, b_tensor).

(** The other ranks run the same method, so each of them reaches
    [all_reduce] only with both of its tensors built.  A rank that raised
    before has left the group: the collective cannot complete, and the
    ranks that wait in it fail with the error of the process group. *)
Fixpoint joined (others : list (Z * Z)) : exn + list (Z * Z) :=
  match others with
  | [] => inr []
  | report :: rest =>
      match tensors_of report with
      | inl _ => inl (RuntimeError "Connection closed by peer")
      | inr tensors => peers ← joined rest; inr (tensors :: peers)
      end
  end.

(** [ExecutorWithExternalLauncher.determine_num_available_blocks] on one
    rank.  [local_report] is what [super().determine_num_available_blocks()]
    returned there, [others] the reports of the remaining ranks of the
    world group, which run the same method. *)
Definition determine_num_available_blocks (local_report : Z * Z)
    (others : list (Z * Z)) : exn + Z * Z :=
  let '(a, b) := local_report in
  a_tensor ← int64_tensor a;
  b_tensor ← int64_tensor b;
  peers ← joined others;
  let a_tensor := all_reduce_MIN a_tensor (fst <$> peers) in
  let b_tensor := all_reduce_MIN b_tensor (snd <$> peers) in
  inr (a_tensor, b_tensor).

(** The method as run by rank [i] of a world whose ranks hold
    [reports]. *)
Definition on_rank (reports : list (Z * Z)) (i : nat) : option (exn + Z * Z) :=
  report ← reports !! i;
  Some (determine_num_available_blocks report (delete i reports)).

(** *** Vocabulary for the properties below *)

Definition in_int64 (v : Z) : Prop := - 2 ^ 63 ≤ v < 2 ^ 63.

(** [m] is the least element of [l]. *)
Definition minimum_of (l : list Z) (m : Z) : Prop :=
  m ∈ l ∧ ∀ x, x ∈ l → m ≤ x.

End ExecutorWithExternalLauncher.

(** What [collective_rpc] returns for what the worker call gave. *)
Definition one_element {answer : Type} (r : exn + answer) : exn + list answer :=
  match r with
  | inl e => inl e
  | inr a => inr [a]
  end.

(** The three calls of a bootstrap. *)
Definition bootstrap_calls (kwargs : init_kwargs) : list rpc_call :=
  [mkCall (MethodName "init_worker") [InitKwargs [kwargs]] [];
   mkCall (MethodName "init_device") [] [];
   mkCall (MethodName "load_model") [] []].

(** *** A sample deployment *)

Module Sample.

(** A worker that counts the calls made on it and answers each call with
    the number of calls before it. *)
#[export] Instance counting_worker : WorkerAPI nat nat := {|
  WorkerWrapperBase := λ _ _, 0%nat;
  run_method := λ w _ _ _, (inr w, S w)
|}.

#[export] Instance sample_host : Host := {|
  local_init_method := "tcp://127.0.0.1:29500";
  int := λ s, if String.eqb s "0" then Some 0
              else if String.eqb s "1" then Some 1 else None;
  repr := λ s, "'" +:+ s +:+ "'";
  VLLM_USE_V1 := true;
  VLLM_ENABLE_V1_MULTIPROCESSING := false;
  environ := {["RANK" := "1"; "LOCAL_RANK" := "1"]};
  SHUTDOWN_CURRENT_RANK := -2
|}.

#[export] Instance sample_base : ExecutorBase nat := {| shutdown := mark_shutdown |}.

Definition new_executor (device : string) (delay_factor : float) : executor nat :=
  mkExecutor (mkConfig device delay_factor) None false [].

Definition sample_init (device : string) (local_rank : Z) : init_kwargs :=
  mkInitKwargs (mkConfig device 0) local_rank 0 "tcp://127.0.0.1:29500" true.

Definition shutdown_request : ReconfigureDistributedRequest := mkReconfigure (-2).

Definition ready_executor : executor nat :=
  mkExecutor (mkConfig "cuda" 0) (Some 3%nat) false [].

Definition reconfigure_call : rpc_call :=
  mkCall (MethodName "reinitialize_distributed") [Reconfigure shutdown_request] [].

Definition sample_reports : list (Z * Z) := [(10, 20); (8, 25); (9, 22)].

End Sample.

End Executor.


(** ** vllm/entrypoints/utils.py, the command-line helpers *)

From stdpp Require Import pretty.

Open Scope Z_scope.

Module Utils.

(** *** cli_env_setup *)

(** [os.environ] before and after the call.  The debug log line is left
    out. *)
Definition cli_env_setup (environ : gmap string string) : gmap string string :=
  match environ !! "VLLM_WORKER_MULTIPROC_METHOD" with
  | Some _ => environ
  | None => <["VLLM_WORKER_MULTIPROC_METHOD" := "spawn"]> environ
  end.

(** *** _validate_truncation_size *)

(** Values of the [tokenization_kwargs] dictionary. *)
Inductive kwarg : Type :=
| KBool (b : bool)
| KInt (n : Z)
| KObj (tag : nat).

#[global] Instance kwarg_eq_dec : EqDecision kwarg.
Proof. solve_decision. Defined.

Definition truncation_message (truncate_prompt_tokens max_model_len : Z)
  : string :=
  "truncate_prompt_tokens value (" +:+ pretty truncate_prompt_tokens
  +:+ ") is greater than max_model_len (" +:+ pretty max_model_len
  +:+ "). Please, select a smaller truncation size.".

(** The state is the caller's [tokenization_kwargs] argument ([None] or a
    dictionary, which the function updates in place). *)
Definition _validate_truncation_size (max_model_len : Z)
    (truncate_prompt_tokens : option Z)
  : M (option (gmap string kwarg)) (option Z) :=
  match truncate_prompt_tokens with
  | Some t =>
      let t := if t <=? -1 then max_model_len else t in
      if t >? max_model_len
      then raise (ValueError (truncation_message t max_model_len))
      else
        modify (fmap (λ kwargs,
                  <["max_length" := KInt t]>
                    (<["truncation" := KBool true]> kwargs)));;
        mret (Some t)
  | None =>
      modify (fmap (insert "truncation" (KBool false)));;
      mret None
  end.

(** *** get_max_tokens *)

(** What the function reads of a [ChatCompletionRequest] or a
    [CompletionRequest].  [max_completion_tokens] is the result of
    [getattr(request, "max_completion_tokens", None)]: [None] when the
    attribute is missing (a [CompletionRequest]) or holds [None]. *)
Record request : Type := mkRequest {
  max_completion_tokens : option Z;
  max_tokens : option Z
}.

(** [a or b] on optional integers: [None] and 0 are false. *)
Definition py_or (a b : option Z) : option Z :=
  match a with
  | Some v => if v =? 0 then b else Some v
  | None => b
  end.

(** [min(val for val in vals if val is not None)] *)
Definition min_not_none (vals : list (option Z)) : exn + Z :=
  match omap id vals with
  | [] => inl (ValueError "min() arg is an empty sequence")
  | v :: rest => inr (foldl Z.min v rest)
  end.

(** [get_max_output_tokens] is [current_platform.get_max_output_tokens]. *)
Definition get_max_tokens (get_max_output_tokens : Z → Z)
    (max_model_len : Z) (request : request) (input_length : Z)
    (default_sampling_params : gmap string Z) : exn + Z :=
  let max_tokens :=
    py_or (max_completion_tokens request) (Utils.max_tokens request) in
  let default_max_tokens := max_model_len - input_length in
  let max_output_tokens := get_max_output_tokens input_length in
  min_not_none [Some default_max_tokens; max_tokens; Some max_output_tokens;
                default_sampling_params !! "max_tokens"].

(** *** _output_with_pager *)

(** How one pager attempt ([subprocess.Popen] and [communicate]) ends: the
    pager showed the text, it failed with one of the exceptions the loop
    catches ([SubprocessError], [OSError], [FileNotFoundError]), or it
    failed with another exception. *)
Inductive attempt : Type :=
| Shown
| Failed
| Crashed (e : exn).

(** What the function does to the terminal, in order: a pager launched on
    a text, or a text printed. *)
Inductive output : Type :=
| Pager (argv : list string) (text : string)
| Print (text : string).

#[global] Instance output_eq_dec : EqDecision output.
Proof. solve_decision. Defined.

Definition is_space (c : Ascii.ascii) : bool :=
  let n := Ascii.nat_of_ascii c in
  (n =? 32)%nat || ((9 <=? n)%nat && (n <=? 13)%nat).

(** [str.split()] on ASCII whitespace: [word] is the word being read. *)
Fixpoint split_words (word : string) (s : string) : list string :=
  match s with
  | EmptyString => match word with EmptyString => [] | _ => [word] end
  | String c rest =>
      if is_space c
      then match word with
           | EmptyString => split_words EmptyString rest
           | _ => word :: split_words EmptyString rest
           end
      else split_words (word +:+ String c EmptyString) rest
  end.

Definition pagers : list string := ["less -R"; "more"].

Section Pager.

(** The processes of the machine: what launching [argv] on [text] does. *)
Variable popen : list string → string → attempt.

(** The loop over the pagers; [None] means that no pager worked. *)
Fixpoint try_pagers (pagers : list string) (text : string)
  : option (option exn) * list output :=
  match pagers with
  | [] => (None, [])
  | pager_cmd :: rest =>
      let argv := split_words EmptyString pager_cmd in
      match popen argv text with
      | Shown => (Some None, [Pager argv text])
      | Crashed e => (Some (Some e), [Pager argv text])
      | Failed =>
          let '(r, out) := try_pagers rest text in
          (r, Pager argv text :: out)
      end
  end.

(** The result is the exception that escapes, if any, and the outputs in
    order. *)
Definition _output_with_pager (text : string) : option exn * list output :=
  match try_pagers pagers text with
  | (Some r, out) => (r, out)
  | (None, out) => (None, out ++ [Print text])
  end.

End Pager.

(** *** show_filtered_argument_or_group_from_help *)

(** What is read of an [argparse] action, argument group and parser. *)
Record action : Type := mkAction {
  option_strings : list string;
  dest : nat
}.

Record group : Type := mkGroup {
  title : option string;
  description : option string;
  _group_actions : list action
}.

Record parser : Type := mkParser {
  _action_groups : list group;
  prog : nat
}.

(** [argparse]'s formatting and the string methods [lower] and [strip]. *)
Class Argparse : Type := {
  format_help : parser → string;
  (** a formatter with one section: title, description, arguments *)
  format_section : parser → string → option string → list action → string;
  (** a formatter holding arguments only *)
  format_arguments : parser → list action → string;
  lower : string → string;
  strip : string → string
}.

(** How the function ends: it returns, [sys.exit(code)], or an exception. *)
Inductive ending : Type :=
| Returns
| Exits (code : Z)
| Raises (e : exn).

#[global] Instance ending_eq_dec : EqDecision ending.
Proof. solve_decision. Defined.

(** [bool(s)] for an optional string: [None] and the empty string are
    false. *)
Definition truthy (s : option string) : bool :=
  match s with
  | Some (String _ _) => true
  | _ => false
  end.

(** [needle in hay] *)
Fixpoint contains (needle hay : string) : bool :=
  String.prefix needle hay
  || match hay with
     | EmptyString => false
     | String _ rest => contains needle rest
     end.

(** [s.split(sep, 1)]: at most one cut, at the first [sep]. *)
Fixpoint split_once (sep : Ascii.ascii) (s : string) : list string :=
  match s with
  | EmptyString => [EmptyString]
  | String c rest =>
      if Ascii.eqb c sep then [EmptyString; rest]
      else match split_once sep rest with
           | part :: parts => String c part :: parts
           | [] => [String c EmptyString]
           end
  end.

Definition newline : string := String (Ascii.ascii_of_nat 10) EmptyString.

(** ["\n".join(lines)] *)
Fixpoint join_lines (lines : list string) : string :=
  match lines with
  | [] => EmptyString
  | [line] => line
  | line :: rest => line +:+ newline +:+ join_lines rest
  end.

Section Help.

Context `{!Argparse}.
Variable popen : list string → string → attempt.

(** [_output_with_pager(text); sys.exit(code)] *)
Definition page_and_exit (text : string) (code : Z) : ending * list output :=
  match _output_with_pager popen text with
  | (Some e, out) => (Raises e, out)
  | (None, out) => (Exits code, out)
  end.

(** The lines that [--help=listgroup] adds for one group. *)
Definition listgroup_lines (g : group) : list string :=
  match title g with
  | Some t =>
      if truthy (title g) && negb (String.prefix "positional arguments" t)
      then ["  - " +:+ t]
           ++ (match description g with
               | Some d => if truthy (description g)
                           then ["    " +:+ strip d] else []
               | None => []
               end)
           ++ [""]
      else []
  | None => []
  end.

(** [group.title and group.title.lower() == search_keyword.lower()] *)
Definition group_matches (search_keyword : string) (g : group) : bool :=
  match title g with
  | Some t => truthy (title g) && String.eqb (lower t) (lower search_keyword)
  | None => false
  end.

(** [any(search_keyword.lower() in opt.lower() for opt in
    action.option_strings)] *)
Definition action_matches (search_keyword : string) (a : action) : bool :=
  existsb (λ opt, contains (lower search_keyword) (lower opt))
          (option_strings a).

Definition matched_actions (p : parser) (search_keyword : string)
  : list action :=
  g ← _action_groups p;
  filter (λ a, action_matches search_keyword a = true) (_group_actions g).

(** The body of the loop for an argument that starts with [--help=]. *)
Definition help_for (p : parser) (arg : string) : ending * list output :=
  match split_once "="%char arg !! 1%nat with
  | None => (Raises (OtherError true 0), [])   (* an [IndexError] *)
  | Some search_keyword =>
      if String.eqb search_keyword "page"
      then page_and_exit (format_help p) 0
      else if String.eqb search_keyword "listgroup"
      then page_and_exit
             (join_lines ((newline +:+ "Available argument groups:")
                          :: (_action_groups p ≫= listgroup_lines)))
             0
      else match find (group_matches search_keyword)
                      (_action_groups p) with
           | Some g =>
               page_and_exit
                 (format_section p (default EmptyString (title g))
                    (description g) (_group_actions g))
                 0
           | None =>
               match matched_actions p search_keyword with
               | [] =>
                   (Exits 1,
                    [Print (newline +:+ "No group or parameter matching '"
                            +:+ search_keyword +:+ "'");
                     Print "Tip: use `--help=listgroup` to view all groups."])
               | matched =>
                   page_and_exit
                     (newline +:+ "Parameters matching '" +:+ search_keyword
                      +:+ "':" +:+ newline +:+ format_arguments p matched)
                     0
               end
           end
  end.

(** [argv] is [sys.argv]. *)
Definition show_filtered_argument_or_group_from_help (argv : list string)
    (p : parser) (subcommand_name : list string) : ending * list output :=
  if bool_decide (length argv ≤ length subcommand_name)%nat
     || negb (bool_decide (take (length subcommand_name) (drop 1 argv)
                           = subcommand_name))
  then (Returns, [])
  else match find (String.prefix "--help=") argv with
       | Some arg => help_for p arg
       | None => (Returns, [])
       end.

End Help.

(** *** Sample inputs *)

(** A machine without pagers. *)
Definition no_pager : list string → string → attempt := λ _ _, Failed.

(** A machine on which [less] works. *)
Definition less_works : list string → string → attempt :=
  λ argv _, match argv with
            | cmd :: _ => if String.eqb cmd "less" then Shown else Failed
            | [] => Failed
            end.

(** Formatting that only names what it formats; [lower] and [strip] leave
    their argument as it is (right for lower-case text without blanks). *)
Definition plain_argparse : Argparse := {|
  format_help := λ _, "usage";
  format_section := λ _ t _ _, t;
  format_arguments := λ _ _, "arguments";
  lower := λ s, s;
  strip := λ s, s
|}.

Definition serve_parser : parser :=
  mkParser
    [mkGroup (Some "positional arguments") None [mkAction [] 0];
     mkGroup (Some "modelconfig") (Some "model") [mkAction ["--max-model-len"] 1];
     mkGroup (Some "schedulerconfig") None [mkAction ["--max-num-seqs"] 2]]
    0.

End Utils.

(** ** Further sample deployments *)

Module MoreSamples.
Import Executor.


(** A launched process that left the V1 multiprocessing layer on. *)
Definition multiprocessing_host : Host := {|
  local_init_method := "tcp://127.0.0.1:29500";
  int := λ s, if String.eqb s "0" then Some 0
              else if String.eqb s "1" then Some 1 else None;
  repr := λ s, "'" +:+ s +:+ "'";
  VLLM_USE_V1 := true;
  VLLM_ENABLE_V1_MULTIPROCESSING := true;
  environ := {["RANK" := "1"; "LOCAL_RANK" := "1"]};
  SHUTDOWN_CURRENT_RANK := -2
|}.

(** A worker whose [init_device] raises; every other call answers. *)
Definition no_device_worker : WorkerAPI nat nat := {|
  WorkerWrapperBase := λ _ _, 0%nat;
  run_method := λ w m _ _,
    match m with
    | MethodName name =>
        if String.eqb name "init_device"
        then (inl (RuntimeError "no device"), S w)
        else (inr w, S w)
    | MethodCallable _ => (inr w, S w)
    end
|}.

(** A keep-the-rank request: any rank but the shutdown sentinel. *)
Definition keep_rank_request : ReconfigureDistributedRequest := mkReconfigure 3.

End MoreSamples.

(** ** Further vocabulary for the server *)

Module MoreVocabulary.
Import Entrypoints.

Definition user_tasks_only (bg : background) : Prop :=
  Forall (λ t, func t ≠ decrement_server_load_fn) (tasks_of bg).

(** The requests of a server that runs with tracking disabled: their
    wrappers entered untracked, and the responses they hold carry only the
    tasks their handlers attached. *)
Definition untracked (r : request_state) : Prop :=
  match handler r with
  | HAwaiting mode => mode = Untracked
  | HDone o => from_option user_tasks_only True (response_background o)
  | _ => True
  end
  ∧ from_option user_tasks_only True (guard r ≫= response_background).

End MoreVocabulary.
(** * Properties of the request wrappers *)

Module EntrypointsFacts.
Import Entrypoints.

(** ** Unfolding the monad *)

Lemma bind_unfold {S A B} (m : M S A) (f : A → M S B) (s : S) :
  (m ≫= f) s =
  match m s with
  | (inl e, s') => (inl e, s')
  | (inr a, s') => f a s'
  end.
Proof. reflexivity. Qed.

Ltac run_monad :=
  cbv [mbind M_bind mret M_ret raise gets modify try_except].

(** ** with_cancellation *)

Lemma asyncio_wait_both (finished : list task) :
  asyncio_wait [handler_task; cancellation_task] finished =
  match bool_decide (handler_task ∈ finished),
        bool_decide (cancellation_task ∈ finished) with
  | true, true => Some ([handler_task; cancellation_task], [])
  | true, false => Some ([handler_task], [cancellation_task])
  | false, true => Some ([cancellation_task], [handler_task])
  | false, false => None
  end.
Proof.
  unfold asyncio_wait.
  repeat case_bool_decide; cbn [filter list_filter];
    repeat (case_decide; try contradiction); reflexivity.
Qed.

Ltac solve_membership :=
  try reflexivity; try contradiction;
  match goal with
  | H : ?x ∈ [?y] |- _ => apply list_elem_of_singleton in H; discriminate H
  | H : ?x ∉ [?x] |- _ => exfalso; apply H, list_elem_of_here
  end.

(** C1, as amended.  A call of the [with_cancellation] wrapper that finds
    its request and is woken from [asyncio.wait] (one of its two tasks has
    finished) ends in exactly one way, decided by whether the handler task is
    among the finished ones at that moment: if it is, the wrapper gives the
    handler's own outcome (its result, or its exception raised again) and
    cancels the disconnect watcher if that is still pending; if it is not,
    the wrapper returns [None] and cancels the handler task.  When a single
    task has finished, this is: handler first, its outcome and the watcher
    cancelled; disconnect first, [None] and the handler cancelled. *)
Theorem with_cancellation_outcome
    (handler_result : outcome) (args : list pyval)
    (kwargs : gmap string pyval) (finished : list task) (request : pyval) :
  guard_request args kwargs = inr request →
  handler_task ∈ finished ∨ cancellation_task ∈ finished →
  ∃ rep,
    with_cancellation handler_result args kwargs finished = Some rep
    ∧ created rep = [handler_task; cancellation_task]
    ∧ (handler_task ∈ finished →
         returned rep = handler_result
         ∧ cancelled rep =
             (if decide (cancellation_task ∈ finished)
              then [] else [cancellation_task]))
    ∧ (handler_task ∉ finished →
         returned rep = Return RNone ∧ cancelled rep = [handler_task])
    ∧ (finished = [handler_task] →
         returned rep = handler_result ∧ cancelled rep = [cancellation_task])
    ∧ (finished = [cancellation_task] →
         returned rep = Return RNone ∧ cancelled rep = [handler_task]).
Proof.
  intros Hreq Hsome.
  unfold with_cancellation. rewrite Hreq, asyncio_wait_both.
  destruct (decide (handler_task ∈ finished)) as [Hh | Hh];
    destruct (decide (cancellation_task ∈ finished)) as [Hc | Hc].
  - rewrite !bool_decide_eq_true_2 by assumption.
    eexists; split; [reflexivity |]. cbn [created cancelled returned].
    rewrite decide_True by (apply list_elem_of_here).
    repeat split; intros; subst; solve_membership.
  - rewrite bool_decide_eq_true_2, bool_decide_eq_false_2 by assumption.
    eexists; split; [reflexivity |]. cbn [created cancelled returned].
    rewrite decide_True by (apply list_elem_of_here).
    repeat split; intros; subst; solve_membership.
  - rewrite bool_decide_eq_false_2, bool_decide_eq_true_2 by assumption.
    eexists; split; [reflexivity |]. cbn [created cancelled returned].
    rewrite decide_False
      by (intros Hin; apply list_elem_of_singleton in Hin; discriminate).
    repeat split; intros; subst; solve_membership.
  - tauto.
Qed.

Lemma with_cancellation_outcome_witness :
  ∃ rep,
    with_cancellation (Return (OtherResult 7)) [] {["raw_request" := PyRequest 0]}
      [handler_task] = Some rep
    ∧ returned rep = Return (OtherResult 7)
    ∧ cancelled rep = [cancellation_task].
Proof.
  destruct (with_cancellation_outcome (Return (OtherResult 7)) []
              {["raw_request" := PyRequest 0]} [handler_task] (PyRequest 0))
    as (rep & Hrun & _ & _ & _ & Hfirst & _).
  - reflexivity.
  - left. apply list_elem_of_singleton. reflexivity.
  - exists rep. split; [exact Hrun | apply Hfirst; reflexivity].
Defined.

(** C1 fails as stated.  The disconnect is observed first (the watcher is
    the first task to finish) and the handler finishes too before the
    wrapper runs again: the wrapper returns the handler's result, not
    [None], and cancels nothing. *)
Lemma with_cancellation_disconnect_first_handler_wins :
  let finished := [cancellation_task; handler_task] in
  head finished = Some cancellation_task
  ∧ with_cancellation (Return (OtherResult 7)) []
      {["raw_request" := PyRequest 0]} finished
    = Some {| created := [handler_task; cancellation_task];
              cancelled := [];
              returned := Return (OtherResult 7) |}
  ∧ Return (OtherResult 7) ≠ Return RNone.
Proof.
  cbv zeta. split; [reflexivity |].
  split; [vm_compute; reflexivity | discriminate].
Qed.

(** ** load_aware_call *)

Lemma load_aware_enter_request args kwargs st rid :
  raw_request_of args kwargs = PyRequest rid →
  load_aware_enter args kwargs st =
  if tracking_enabled st then (inr Tracked, incremented st)
  else (inr Untracked, st).
Proof.
  intros Hreq. unfold load_aware_enter, incremented. rewrite Hreq.
  run_monad. unfold app_state_of. run_monad.
  destruct (tracking_enabled st); cbn [negb]; [| reflexivity].
  run_monad. unfold has_server_load_metrics, iadd_server_load_metrics.
  destruct st as [en [n |]]; reflexivity.
Qed.

Lemma load_aware_call_request func args kwargs st rid :
  raw_request_of args kwargs = PyRequest rid →
  load_aware_call func args kwargs st =
  if tracking_enabled st
  then match func args kwargs (incremented st) with
       | (inl e, st') => on_handler_error e st'
       | (inr response, st') => after_handler (PyRequest rid) response st'
       end
  else func args kwargs st.
Proof.
  intros Hreq. unfold load_aware_call, incremented. rewrite Hreq.
  run_monad. unfold app_state_of. run_monad.
  destruct (tracking_enabled st); cbn [negb]; [| reflexivity].
  run_monad. unfold has_server_load_metrics, iadd_server_load_metrics.
  assert (Herr : ∀ e st', ∃ e' st'', on_handler_error e st' = (inl e', st'')).
  { intros e st'. unfold on_handler_error.
    destruct (is_Exception e); [| by eexists _, _].
    cbv [mbind M_bind raise iadd_server_load_metrics].
    destruct (server_load_metrics st'); by eexists _, _. }
  destruct st as [en [n |]];
    cbv [mbind M_bind mret M_ret gets modify try_except
         has_server_load_metrics iadd_server_load_metrics
         set_server_load_metrics server_load_metrics
         enable_server_load_tracking negb default id];
    rewrite ?Z.add_0_l;
    destruct (func args kwargs _) as [[e | r] st']; try reflexivity;
    destruct (Herr e st') as (e' & st'' & ->); reflexivity.
Qed.

(** The wrapper is its two segments around the handler. *)
Lemma load_aware_call_segments func args kwargs st :
  load_aware_call func args kwargs st =
  match load_aware_enter args kwargs st with
  | (inl e, st1) => (inl e, st1)
  | (inr mode, st1) =>
      let '(awaited, st2) := func args kwargs st1 in
      load_aware_resume (raw_request_of args kwargs) mode
        (outcome_of awaited) st2
  end.
Proof.
  destruct (raw_request_of args kwargs) as [| rid | tag] eqn:Hreq.
  - unfold load_aware_call, load_aware_enter. rewrite Hreq. reflexivity.
  - rewrite (load_aware_call_request _ _ _ _ rid Hreq),
      (load_aware_enter_request _ _ _ rid Hreq).
    destruct (tracking_enabled st).
    + destruct (func args kwargs (incremented st)) as [[e | r] st']; reflexivity.
    + destruct (func args kwargs st) as [[e | r] st']; reflexivity.
  - unfold load_aware_call, load_aware_enter. rewrite Hreq. reflexivity.
Qed.

(** C3, as amended.  With tracking disabled on the application state, a
    call in which the wrapper finds a request is the handler's call: same
    result or exception, same final state, no counter update and no error of
    the wrapper's own.  A call in which it finds no request ([None]) raises
    [ValueError] without running the handler, and one in which it finds an
    object that is no request raises [AttributeError]: the request is looked
    up, and checked, before the tracking flag is read through it. *)
Theorem load_aware_call_tracking_disabled
    (func : list pyval → gmap string pyval → M app_state result)
    (args : list pyval) (kwargs : gmap string pyval) (st : app_state) :
  tracking_enabled st = false →
  load_aware_call func args kwargs st =
  match raw_request_of args kwargs with
  | PyRequest _ => func args kwargs st
  | PyNone =>
      (inl (ValueError "raw_request required when server load tracking is enabled"),
       st)
  | PyObj _ => (inl (AttributeError "app"), st)
  end.
Proof.
  intros Hoff.
  destruct (raw_request_of args kwargs) as [| rid | tag] eqn:Hreq.
  - unfold load_aware_call. rewrite Hreq. reflexivity.
  - rewrite (load_aware_call_request _ _ _ _ rid Hreq), Hoff. reflexivity.
  - unfold load_aware_call. rewrite Hreq. reflexivity.
Qed.

Lemma load_aware_call_tracking_disabled_witness :
  load_aware_call marking_handler [] {["raw_request" := PyRequest 0]} tracking_off
  = marking_handler [] {["raw_request" := PyRequest 0]} tracking_off.
Proof.
  exact (load_aware_call_tracking_disabled marking_handler []
           {["raw_request" := PyRequest 0]} tracking_off eq_refl).
Defined.

(** C3 fails as stated.  Tracking is disabled and the call carries no
    request: the wrapper raises [ValueError] and the handler is not run (its
    mark is missing from the state), where the claim has the handler invoked
    and its result returned. *)
Lemma load_aware_call_disabled_without_request :
  tracking_enabled tracking_off = false
  ∧ load_aware_call marking_handler [] ∅ tracking_off
    = (inl (ValueError "raw_request required when server load tracking is enabled"),
       tracking_off)
  ∧ marking_handler [] ∅ tracking_off
    = (inr (OtherResult 1), set_server_load_metrics 99 tracking_off).
Proof. vm_compute. repeat split. Qed.

(** C4, as amended.  In a tracked call whose handler raises an exception
    [e] deriving from [Exception], the wrapper decrements the counter once
    and raises [e] itself; if the counter still holds the wrapper's own
    increment, it is back at its value from before the increment (0 for a
    counter that did not exist yet).  An exception that does not derive
    from [Exception], task cancellation among them, passes through the
    wrapper untouched and without a decrement. *)
Theorem load_aware_call_handler_raises
    (func : list pyval → gmap string pyval → M app_state result)
    (args : list pyval) (kwargs : gmap string pyval)
    (st st' : app_state) (rid : nat) (e : exn) (n : Z) :
  raw_request_of args kwargs = PyRequest rid →
  tracking_enabled st = true →
  func args kwargs (incremented st) = (inl e, st') →
  server_load_metrics st' = Some n →
  load_aware_call func args kwargs st =
    (inl e, if is_Exception e then set_server_load_metrics (n - 1) st' else st')
  ∧ (is_Exception e = true → st' = incremented st →
     server_load_metrics (snd (load_aware_call func args kwargs st))
     = Some (default 0 (server_load_metrics st))).
Proof.
  intros Hreq Hon Hfunc Hn.
  rewrite (load_aware_call_request _ _ _ _ rid Hreq), Hon, Hfunc.
  unfold on_handler_error.
  destruct (is_Exception e).
  - run_monad. unfold iadd_server_load_metrics. rewrite Hn.
    replace (n + -1) with (n - 1) by lia.
    split; [reflexivity |].
    intros _ ->. cbn [snd set_server_load_metrics server_load_metrics].
    unfold incremented in Hn. cbn [set_server_load_metrics server_load_metrics] in Hn.
    f_equal. injection Hn as <-. lia.
  - split; [reflexivity | discriminate].
Qed.

Lemma load_aware_call_handler_raises_witness :
  load_aware_call (λ _ _, raise (ValueError "no such model")) []
    {["raw_request" := PyRequest 0]} tracking_on
  = (inl (ValueError "no such model"), tracking_on).
Proof.
  exact (proj1 (load_aware_call_handler_raises
                  (λ _ _, raise (ValueError "no such model")) []
                  {["raw_request" := PyRequest 0]} tracking_on
                  (incremented tracking_on) 0 (ValueError "no such model") 1
                  eq_refl eq_refl eq_refl eq_refl)).
Defined.

(** C4 fails as stated.  The handler of a tracked call raises
    [CancelledError], which is what the await raises when the task is
    cancelled: the wrapper lets it through and the counter keeps the
    increment (1, from 0). *)
Lemma load_aware_call_cancelled_keeps_increment :
  load_aware_call (λ _ _, raise CancelledError) []
    {["raw_request" := PyRequest 0]} tracking_on
  = (inl CancelledError, set_server_load_metrics 1 tracking_on)
  ∧ server_load_metrics (set_server_load_metrics 1 tracking_on)
    ≠ server_load_metrics tracking_on.
Proof. split; [vm_compute; reflexivity | discriminate]. Qed.

(** C5, as amended.  In a tracked call whose handler returns a [JSONResponse]
    or a [StreamingResponse], the wrapper returns that response with one
    task added to its background: the tasks that were there (none, one or
    several) are all kept, in their order, and the added task comes last.
    The added task is the call [decrement_server_load(raw_request)]: its
    function is [decrement_server_load], its only argument the request of
    the call, and when it is called it takes the counter down by one.
    Nothing else changes: class, body, and the state the handler left. *)
Theorem load_aware_call_appends_decrement
    (handler_func : list pyval → gmap string pyval → M app_state result)
    (args : list pyval) (kwargs : gmap string pyval)
    (st st' : app_state) (rid : nat)
    (cls : response_class) (body : nat) (bg : background) :
  raw_request_of args kwargs = PyRequest rid →
  tracking_enabled st = true →
  handler_func args kwargs (incremented st)
  = (inr (Response cls body bg), st') →
  ∃ bg' hook,
    load_aware_call handler_func args kwargs st
    = (inr (Response cls body bg'), st')
    ∧ tasks_of bg' = tasks_of bg ++ [hook]
    ∧ func hook = decrement_server_load_fn
    ∧ task_args hook = [PyRequest rid]
    ∧ task_kwargs hook = []
    ∧ ∀ (st0 : app_state) (n : Z),
        server_load_metrics st0 = Some n →
        call_task hook st0 = (inr tt, set_server_load_metrics (n - 1) st0).
Proof.
  intros Hreq Hon Hfunc.
  rewrite (load_aware_call_request _ _ _ _ rid Hreq), Hon, Hfunc.
  exists (add_decrement_task (PyRequest rid) bg), (decrement_task (PyRequest rid)).
  split; [reflexivity |].
  split; [destruct bg as [| [f a k] | tasks]; reflexivity |].
  repeat split.
  intros st0 n Hn.
  cbv [call_task decrement_task func task_args decrement_server_load
       app_state_of mbind M_bind mret M_ret iadd_server_load_metrics].
  rewrite Hn. reflexivity.
Qed.

Lemma load_aware_call_appends_decrement_witness :
  ∃ bg' hook,
    load_aware_call
      (λ _ _, mret (Response StreamingResponse 3 (BackgroundTasks [log_task; flush_task])))
      [] {["raw_request" := PyRequest 0]} tracking_on
    = (inr (Response StreamingResponse 3 bg'), incremented tracking_on)
    ∧ tasks_of bg' = [log_task; flush_task] ++ [hook]
    ∧ func hook = decrement_server_load_fn
    ∧ task_args hook = [PyRequest 0]
    ∧ task_kwargs hook = []
    ∧ ∀ (st0 : app_state) (n : Z),
        server_load_metrics st0 = Some n →
        call_task hook st0 = (inr tt, set_server_load_metrics (n - 1) st0).
Proof.
  exact (load_aware_call_appends_decrement
           (λ _ _, mret (Response StreamingResponse 3
                           (BackgroundTasks [log_task; flush_task])))
           [] {["raw_request" := PyRequest 0]} tracking_on
           (incremented tracking_on) 0 StreamingResponse 3
           (BackgroundTasks [log_task; flush_task])
           eq_refl eq_refl eq_refl).
Defined.

(** C5 fails as stated.  The handler of a tracked call returns a starlette
    response that is neither a [JSONResponse] nor a [StreamingResponse] and
    carries two tasks: the wrapper returns it as it is, with the same two
    tasks and no decrement task after them, and takes the counter down at
    once (back to 0). *)
Lemma load_aware_call_other_response_gets_no_hook :
  load_aware_call
    (λ _ _, mret (PlainResponse 3 (BackgroundTasks [log_task; flush_task])))
    [] {["raw_request" := PyRequest 0]} tracking_on
  = (inr (PlainResponse 3 (BackgroundTasks [log_task; flush_task])),
     tracking_on)
  ∧ ∀ request, decrement_task request ∉ [log_task; flush_task].
Proof.
  split; [vm_compute; reflexivity |].
  intros request Hin.
  apply elem_of_cons in Hin as [Heq | Hin]; [discriminate Heq |].
  apply list_elem_of_singleton in Hin. discriminate Hin.
Qed.

(** ** listen_for_disconnect *)

Lemma listen_for_disconnect_skips (before rest : list message) (st : app_state) :
  Forall (λ m, msg_type m ≠ "http.disconnect") before →
  listen_for_disconnect (before ++ rest) st = listen_for_disconnect rest st.
Proof.
  induction 1 as [| m before Hm _ IH]; [reflexivity |].
  cbn [app listen_for_disconnect].
  apply String.eqb_neq in Hm. rewrite Hm. exact IH.
Qed.

Lemma on_disconnect_cases (st : app_state) :
  on_disconnect st =
  match enable_server_load_tracking st, server_load_metrics st with
  | Some true, Some n => set_server_load_metrics (n - 1) st
  | _, _ => st
  end.
Proof.
  unfold on_disconnect, tracking_enabled, has_server_load_metrics.
  destruct st as [[[|] |] [n |]]; reflexivity.
Qed.

(** C10.  The watcher returns at the first disconnect message, and on its
    way out decrements the counter exactly when tracking is enabled and the
    counter exists; in every other case it leaves the state as it found it,
    and messages other than a disconnect change nothing.  A tracked handler
    that is cancelled does not decrement: [CancelledError] passes the
    wrapper's [except Exception] clause, so the counter keeps the wrapper's
    increment; the watcher's decrement is what takes it back to its value
    from before the request (0 for a counter the request created). *)
Theorem listen_for_disconnect_rebalances
    (before after : list message) (st st0 : app_state)
    (args : list pyval) (kwargs : gmap string pyval) (rid : nat) :
  Forall (λ m, msg_type m ≠ "http.disconnect") before →
  raw_request_of args kwargs = PyRequest rid →
  tracking_enabled st0 = true →
  listen_for_disconnect (before ++ disconnect :: after) st =
    (Finished,
     match enable_server_load_tracking st, server_load_metrics st with
     | Some true, Some n => set_server_load_metrics (n - 1) st
     | _, _ => st
     end)
  ∧ listen_for_disconnect before st = (Suspended, st)
  ∧ load_aware_call (λ _ _, raise CancelledError) args kwargs st0
    = (inl CancelledError, incremented st0)
  ∧ listen_for_disconnect (before ++ disconnect :: after) (incremented st0)
    = (Finished,
       set_server_load_metrics (default 0 (server_load_metrics st0)) st0).
Proof.
  intros Hbefore Hreq Hon.
  split; [| split; [| split]].
  - rewrite (listen_for_disconnect_skips _ _ _ Hbefore).
    cbn [listen_for_disconnect disconnect msg_type].
    rewrite String.eqb_refl, on_disconnect_cases. reflexivity.
  - rewrite <- (app_nil_r before) at 1.
    rewrite (listen_for_disconnect_skips _ _ _ Hbefore). reflexivity.
  - rewrite (load_aware_call_request _ _ _ _ rid Hreq), Hon. reflexivity.
  - rewrite (listen_for_disconnect_skips _ _ _ Hbefore).
    cbn [listen_for_disconnect disconnect msg_type].
    rewrite String.eqb_refl, on_disconnect_cases.
    unfold tracking_enabled in Hon. unfold incremented.
    destruct st0 as [[[|] |] m]; try discriminate.
    cbn [enable_server_load_tracking server_load_metrics set_server_load_metrics].
    replace (default 0 m + 1 - 1) with (default 0 m) by lia. reflexivity.
Qed.

Lemma listen_for_disconnect_rebalances_witness :
  listen_for_disconnect ([body_chunk] ++ disconnect :: [body_chunk])
    (incremented tracking_on)
  = (Finished, set_server_load_metrics 0 tracking_on).
Proof.
  refine (proj2 (proj2 (proj2
    (listen_for_disconnect_rebalances [body_chunk] [body_chunk]
       tracking_off tracking_on [] {["raw_request" := PyRequest 0]} 0
       _ eq_refl eq_refl)))).
  constructor; [discriminate | constructor].
Defined.

(** ** The server *)

(** C2 does not hold on the code.  One tracked request, whose watcher sees
    the disconnect and whose handler returns before the wrapper of
    [with_cancellation] resumes: the watcher decrements (1 to 0), the
    wrapper of [load_aware_call] decrements again for the returned result
    (0 to -1), and the request is through with the counter at -1, outside
    [0, 1] and not back at 0. *)
Theorem tie_decrements_twice :
  counter_after (take 1 tie) = Some (Some 1)
  ∧ counter_after (take 2 tie) = Some (Some 0)
  ∧ counter_after (take 3 tie) = Some (Some (-1))
  ∧ ∃ s, run tie fresh_server = Some s
         ∧ size (requests s) = 1%nat
         ∧ all_settled s = true
         ∧ guard <$> requests s !! 0%nat = Some (Some (Return (OtherResult 1)))
         ∧ server_load_metrics (state s) = Some (-1).
Proof.
  split; [vm_compute; reflexivity |].
  split; [vm_compute; reflexivity |].
  split; [vm_compute; reflexivity |].
  eexists. split; [vm_compute; reflexivity |].
  repeat split; vm_compute; reflexivity.
Qed.

(** ** The counter in runs without a tie *)




Lemma route_request (rid : nat) :
  raw_request_of [] (route_kwargs rid) = PyRequest rid.
Proof.
  unfold raw_request_of, route_kwargs. by rewrite lookup_singleton_eq.
Qed.

Lemma route_guard_request (rid : nat) :
  guard_request [] (route_kwargs rid) = inr (PyRequest rid).
Proof.
  unfold guard_request, route_kwargs. by rewrite lookup_singleton_eq.
Qed.

(** Tasks that return quietly run without effect, and the tasks after
    them are called. *)
Lemma call_tasks_users (users rest : list BackgroundTask) (st : app_state) :
  Forall returns_quietly users →
  call_tasks (users ++ rest) st = call_tasks rest st.
Proof.
  induction 1 as [| t users Ht _ IH]; [reflexivity |].
  cbn [app call_tasks]. cbv [mbind M_bind].
  unfold returns_quietly in Ht. unfold call_task.
  destruct (func t); [done | | done]. exact IH.
Qed.

(** Tasks other than [decrement_server_load] leave the state as it is,
    whether they return or raise. *)
Lemma call_tasks_state (tasks : list BackgroundTask) (st : app_state) :
  Forall (λ t, func t ≠ decrement_server_load_fn) tasks →
  (call_tasks tasks st).2 = st.
Proof.
  induction 1 as [| t tasks Ht _ IH]; [reflexivity |].
  cbn [call_tasks]. cbv [mbind M_bind].
  unfold call_task. destruct (func t); [done | exact IH | reflexivity].
Qed.










Lemma with_cancellation_route rid (o : outcome) (r : request_state) :
  with_cancellation o [] (route_kwargs rid) (finished_tasks r) =
  match handler r, listener r with
  | HDone _, LDone =>
      Some (mkReport [handler_task; cancellation_task] [] o)
  | HDone _, _ =>
      Some (mkReport [handler_task; cancellation_task] [cancellation_task] o)
  | _, LDone =>
      Some (mkReport [handler_task; cancellation_task] [handler_task]
              (Return RNone))
  | _, _ => None
  end.
Proof.
  unfold with_cancellation. rewrite route_guard_request.
  unfold finished_tasks.
  destruct (handler r), (listener r); reflexivity.
Qed.







End EntrypointsFacts.

(** * Properties of the executors *)

Module ExecutorFacts.
Import Executor.

Section Generic.

Context {W answer : Type} `{!WorkerAPI W answer} `{!Host} `{!ExecutorBase W}.

Import UniProcExecutor.

(** [collective_rpc] is one call on the driver worker, whatever else the
    executor holds: the worker's answer comes back as the only element of a
    list, the worker's exception comes back as it is. *)
Lemma collective_rpc_dispatches
    (self : executor W) (w w' : W) (m : method) (timeout : option float)
    (args : list rpc_arg) (kwargs : option (list (string * rpc_arg)))
    (r : exn + answer) :
  driver_worker self = Some w →
  run_method w m args (default [] kwargs) = (r, w') →
  collective_rpc m timeout args kwargs self =
    (one_element r,
     mkExecutor (self_vllm_config self) (Some w') (is_shutdown self)
       (trace self ++ [mkCall m args (default [] kwargs)])).
Proof.
  intros Hw Hrun.
  unfold collective_rpc, call_driver_worker.
  cbv [mbind M_bind mret M_ret]. rewrite Hw, Hrun.
  destruct r; reflexivity.
Qed.

(** The three [collective_rpc] calls that end both [_init_executor]
    methods, when the worker answers each of them. *)
Lemma bootstrap_sequence
    (self : executor W) (kwargs : init_kwargs) (w0 w1 w2 w3 : W)
    (a1 a2 a3 : answer) :
  driver_worker self = Some w0 →
  run_method w0 (MethodName "init_worker") [InitKwargs [kwargs]] [] = (inr a1, w1) →
  run_method w1 (MethodName "init_device") [] [] = (inr a2, w2) →
  run_method w2 (MethodName "load_model") [] [] = (inr a3, w3) →
  (collective_rpc (MethodName "init_worker") None [InitKwargs [kwargs]] None;;
   collective_rpc (MethodName "init_device") None [] None;;
   collective_rpc (MethodName "load_model") None [] None;;
   mret tt) self
  = (inr tt,
     mkExecutor (self_vllm_config self) (Some w3) (is_shutdown self)
       (trace self ++ bootstrap_calls kwargs)).
Proof.
  intros Hw H1 H2 H3.
  cbv [mbind M_bind mret M_ret].
  rewrite (collective_rpc_dispatches self w0 w1 _ _ _ None (inr a1) Hw H1).
  cbn [one_element].
  erewrite (collective_rpc_dispatches _ w1 w2 _ _ _ None (inr a2));
    [| reflexivity | exact H2].
  cbn [one_element].
  erewrite (collective_rpc_dispatches _ w2 w3 _ _ _ None (inr a3));
    [| reflexivity | exact H3].
  cbn [one_element self_vllm_config is_shutdown trace default].
  rewrite <- !app_assoc. reflexivity.
Qed.

(** C6.  [UniProcExecutor._init_executor] builds the worker wrapper and
    calls [init_worker], [init_device] and [load_model] on it, once each and
    in this order (these three calls are all it adds to the history), when
    the worker answers each call; [init_worker] gets rank 0, the driver
    flag, the local address and the device index as local rank (0 without an
    index).  [collective_rpc] returns the list whose one element is the
    answer of the call on the driver worker. *)
Theorem uniproc_bootstrap_and_rpc
    (self : executor W) (local_rank : Z) (w1 w2 w3 : W) (a1 a2 a3 : answer)
    (current : executor W) (w w' : W) (m : method) (timeout : option float)
    (args : list rpc_arg) (kwargs : option (list (string * rpc_arg)))
    (a : answer) :
  let vllm_config := self_vllm_config self in
  let w0 := WorkerWrapperBase vllm_config 0 in
  let init := mkInitKwargs vllm_config local_rank 0 local_init_method true in
  match split ":" (device vllm_config) !! 1%nat with
  | Some index => int index = Some local_rank
  | None => local_rank = 0
  end →
  run_method w0 (MethodName "init_worker") [InitKwargs [init]] [] = (inr a1, w1) →
  run_method w1 (MethodName "init_device") [] [] = (inr a2, w2) →
  run_method w2 (MethodName "load_model") [] [] = (inr a3, w3) →
  driver_worker current = Some w →
  run_method w m args (default [] kwargs) = (inr a, w') →
  _init_executor self =
    (inr tt,
     mkExecutor vllm_config (Some w3) (is_shutdown self)
       (trace self ++ bootstrap_calls init))
  ∧ fst (collective_rpc m timeout args kwargs current) = inr [a]
  ∧ trace (snd (collective_rpc m timeout args kwargs current))
    = trace current ++ [mkCall m args (default [] kwargs)].
Proof.
  intros vllm_config w0 init Hrank H1 H2 H3 Hw Hrun.
  split.
  - unfold _init_executor.
    cbv [mbind M_bind gets modify]. fold vllm_config. fold w0.
    assert (Hlr :
      (match split ":" (device vllm_config) !! 1%nat with
       | Some index => py_int index
       | None => mret 0
       end) (set_driver_worker w0 self)
      = (inr local_rank, set_driver_worker w0 self)).
    { destruct (split ":" (device vllm_config) !! 1%nat) as [index |].
      - unfold py_int. rewrite Hrank. reflexivity.
      - subst local_rank. reflexivity. }
    rewrite Hlr.
    exact (bootstrap_sequence (set_driver_worker w0 self) init w0 w1 w2 w3
             a1 a2 a3 eq_refl H1 H2 H3).
  - rewrite (collective_rpc_dispatches current w w' m timeout args kwargs
               (inr a) Hw Hrun).
    split; reflexivity.
Qed.

(** Whatever the worker does, a bootstrap calls the three methods in
    order and stops at the first one that raises: the calls it adds to the
    history are the first [k] of them, and all three if it returns. *)
Lemma uniproc_bootstrap_prefix (self : executor W) :
  ∃ (k : nat) (init : init_kwargs),
    trace (snd (_init_executor self))
    = trace self ++ take k (bootstrap_calls init)
    ∧ (fst (_init_executor self) = inr tt → k = 3%nat).
Proof.
  unfold _init_executor. cbv [mbind M_bind gets modify mret M_ret].
  set (vllm_config := self_vllm_config self).
  set (w0 := WorkerWrapperBase vllm_config 0).
  destruct (split ":" (device vllm_config) !! 1%nat) as [index |].
  - unfold py_int. destruct (int index) as [lr |].
    + cbv [mret M_ret collective_rpc call_driver_worker mbind M_bind
           set_driver_worker driver_worker default trace self_vllm_config
           is_shutdown].
      destruct (run_method w0 _ _ _) as [[e1 | a1] w1].
      { exists 1%nat, (mkInitKwargs vllm_config lr 0 local_init_method true).
        split; [reflexivity | discriminate]. }
      destruct (run_method w1 _ _ _) as [[e2 | a2] w2].
      { exists 2%nat, (mkInitKwargs vllm_config lr 0 local_init_method true).
        split; [by rewrite <- app_assoc | discriminate]. }
      destruct (run_method w2 _ _ _) as [[e3 | a3] w3];
        exists 3%nat, (mkInitKwargs vllm_config lr 0 local_init_method true);
        (split; [by rewrite <- !app_assoc | done]).
    + exists 0%nat, (mkInitKwargs vllm_config 0 0 local_init_method true).
      cbn. rewrite app_nil_r. split; [reflexivity | discriminate].
  - cbv [mret M_ret collective_rpc call_driver_worker mbind M_bind
         set_driver_worker driver_worker default trace self_vllm_config
         is_shutdown].
    destruct (run_method w0 _ _ _) as [[e1 | a1] w1].
    { exists 1%nat, (mkInitKwargs vllm_config 0 0 local_init_method true).
      split; [reflexivity | discriminate]. }
    destruct (run_method w1 _ _ _) as [[e2 | a2] w2].
    { exists 2%nat, (mkInitKwargs vllm_config 0 0 local_init_method true).
      split; [by rewrite <- app_assoc | discriminate]. }
    destruct (run_method w2 _ _ _) as [[e3 | a3] w3];
      exists 3%nat, (mkInitKwargs vllm_config 0 0 local_init_method true);
      (split; [by rewrite <- !app_assoc | done]).
Qed.

(** C8.  [ExecutorWithExternalLauncher._init_executor] on a configuration
    whose delay factor is not zero raises the assertion error of its first
    statement and leaves the executor as it was: no worker wrapper has been
    built ([driver_worker] is what it was, unset on a new executor) and no
    method of a worker has been called (the history is unchanged). *)
Theorem external_launcher_rejects_delay_factor (self : executor W) :
  PrimFloat.eqb (delay_factor (self_vllm_config self)) 0 = false →
  ExecutorWithExternalLauncher._init_executor self
  = (inl (AssertionError ExecutorWithExternalLauncher.delay_factor_message),
     self).
Proof.
  intros Hdelay. unfold ExecutorWithExternalLauncher._init_executor.
  cbv [mbind M_bind gets py_assert]. rewrite Hdelay. reflexivity.
Qed.

(** X13.  With a zero delay factor, the multiprocessing layer off and both
    environment variables readable, the external launcher's bootstrap
    builds the wrapper and makes the same three calls, with the rank and
    local rank of the environment and the [env://] method. *)
Lemma external_launcher_bootstrap
    (self : executor W) (rank_s local_rank_s : string) (rank local_rank : Z)
    (w1 w2 w3 : W) (a1 a2 a3 : answer) :
  let vllm_config := self_vllm_config self in
  let w0 := WorkerWrapperBase vllm_config 0 in
  let init := mkInitKwargs vllm_config local_rank rank "env://" true in
  PrimFloat.eqb (delay_factor vllm_config) 0 = true →
  VLLM_USE_V1 && VLLM_ENABLE_V1_MULTIPROCESSING = false →
  environ !! "RANK" = Some rank_s → int rank_s = Some rank →
  environ !! "LOCAL_RANK" = Some local_rank_s →
  int local_rank_s = Some local_rank →
  run_method w0 (MethodName "init_worker") [InitKwargs [init]] [] = (inr a1, w1) →
  run_method w1 (MethodName "init_device") [] [] = (inr a2, w2) →
  run_method w2 (MethodName "load_model") [] [] = (inr a3, w3) →
  ExecutorWithExternalLauncher._init_executor self =
    (inr tt,
     mkExecutor vllm_config (Some w3) (is_shutdown self)
       (trace self ++ bootstrap_calls init)).
Proof.
  intros vllm_config w0 init Hdelay Hmp Hr Hri Hl Hli H1 H2 H3.
  unfold ExecutorWithExternalLauncher._init_executor.
  cbv [mbind M_bind gets modify py_assert environ_get py_int mret M_ret].
  fold vllm_config. rewrite Hdelay.
  destruct VLLM_USE_V1, VLLM_ENABLE_V1_MULTIPROCESSING;
    try discriminate Hmp; cbv [negb raise];
    rewrite Hr, Hri, Hl, Hli; fold w0;
  exact (bootstrap_sequence (set_driver_worker w0 self) init w0 w1 w2 w3
           a1 a2 a3 eq_refl H1 H2 H3).
Qed.

(** C9, as amended.  [reinitialize_distributed] with the shutdown sentinel
    as new data-parallel rank reconfigures the worker and then runs
    [shutdown] on the executor.  [collective_rpc] looks at no lifecycle
    state: called on the executor that [shutdown] leaves, it is dispatched
    to the driver worker that executor holds and returns the worker's answer
    as a one-element list (or raises what the worker raises). *)
Theorem reinitialize_distributed_then_rpc
    (self : executor W) (req : ReconfigureDistributedRequest)
    (w w' w2 w3 : W) (a0 : answer) (m : method) (timeout : option float)
    (args : list rpc_arg) (kwargs : option (list (string * rpc_arg)))
    (r : exn + answer) :
  let reconfigured :=
    mkExecutor (self_vllm_config self) (Some w') (is_shutdown self)
      (trace self
       ++ [mkCall (MethodName "reinitialize_distributed") [Reconfigure req] []]) in
  let after := snd (shutdown reconfigured) in
  driver_worker self = Some w →
  run_method w (MethodName "reinitialize_distributed") [Reconfigure req] []
    = (inr a0, w') →
  new_data_parallel_rank req = SHUTDOWN_CURRENT_RANK →
  driver_worker after = Some w2 →
  run_method w2 m args (default [] kwargs) = (r, w3) →
  reinitialize_distributed req self = shutdown reconfigured
  ∧ collective_rpc m timeout args kwargs after =
      (one_element r,
       mkExecutor (self_vllm_config after) (Some w3) (is_shutdown after)
         (trace after ++ [mkCall m args (default [] kwargs)])).
Proof.
  intros reconfigured after Hw Hrun Hrank Hw2 Hrun2.
  split.
  - unfold reinitialize_distributed, call_driver_worker.
    cbv [mbind M_bind]. rewrite Hw, Hrun, Hrank, Z.eqb_refl. reflexivity.
  - exact (collective_rpc_dispatches after w2 w3 m timeout args kwargs r
             Hw2 Hrun2).
Qed.

End Generic.

Import Sample.

Lemma uniproc_bootstrap_and_rpc_witness :
  UniProcExecutor._init_executor (new_executor "cuda:1" 0)
  = (inr tt,
     mkExecutor (mkConfig "cuda:1" 0) (Some 3%nat) false
       (bootstrap_calls (sample_init "cuda:1" 1)))
  ∧ fst (UniProcExecutor.collective_rpc (MethodName "execute_model") None
           [Arg 1] None
           (mkExecutor (mkConfig "cuda:1" 0) (Some 3%nat) false []))
    = inr [3%nat]
  ∧ trace (snd (UniProcExecutor.collective_rpc (MethodName "execute_model")
                  None [Arg 1] None
                  (mkExecutor (mkConfig "cuda:1" 0) (Some 3%nat) false [])))
    = [] ++ [mkCall (MethodName "execute_model") [Arg 1] (default [] None)].
Proof.
  exact (uniproc_bootstrap_and_rpc (new_executor "cuda:1" 0) 1
           1%nat 2%nat 3%nat 0%nat 1%nat 2%nat
           (mkExecutor (mkConfig "cuda:1" 0) (Some 3%nat) false [])
           3%nat 4%nat (MethodName "execute_model") None [Arg 1] None 3%nat
           eq_refl eq_refl eq_refl eq_refl eq_refl eq_refl).
Defined.

Lemma external_launcher_rejects_delay_factor_witness :
  ExecutorWithExternalLauncher._init_executor (new_executor "cuda" 0.5)
  = (inl (AssertionError ExecutorWithExternalLauncher.delay_factor_message),
     new_executor "cuda" 0.5).
Proof.
  exact (external_launcher_rejects_delay_factor (new_executor "cuda" 0.5)
           eq_refl).
Defined.

Lemma reinitialize_distributed_then_rpc_witness :
  UniProcExecutor.reinitialize_distributed shutdown_request ready_executor
  = (inr tt, mkExecutor (mkConfig "cuda" 0) (Some 4%nat) true [reconfigure_call])
  ∧ UniProcExecutor.collective_rpc (MethodName "execute_model") None [] None
      (mkExecutor (mkConfig "cuda" 0) (Some 4%nat) true [reconfigure_call])
    = (inr [4%nat],
       mkExecutor (mkConfig "cuda" 0) (Some 5%nat) true
         [reconfigure_call; mkCall (MethodName "execute_model") [] []]).
Proof.
  exact (reinitialize_distributed_then_rpc ready_executor shutdown_request
           3%nat 4%nat 4%nat 5%nat 3%nat (MethodName "execute_model") None []
           None (inr 4%nat) eq_refl eq_refl eq_refl eq_refl eq_refl).
Defined.

(** C9 fails as stated.  After the shutdown request the executor is marked
    as shut down, and the next [collective_rpc] raises nothing: it calls
    [execute_model] on the worker (the call is in the history, after the
    reconfiguration) and returns the worker's answer. *)
Lemma collective_rpc_after_shutdown_is_dispatched :
  let after :=
    snd (UniProcExecutor.reinitialize_distributed shutdown_request
           ready_executor) in
  is_shutdown after = true
  ∧ fst (UniProcExecutor.collective_rpc (MethodName "execute_model") None []
           None after)
    = inr [4%nat]
  ∧ trace (snd (UniProcExecutor.collective_rpc (MethodName "execute_model")
                  None [] None after))
    = [reconfigure_call; mkCall (MethodName "execute_model") [] []].
Proof. cbv zeta. repeat split. Qed.

End ExecutorFacts.

(** * The capacity agreement of ExecutorWithExternalLauncher *)

Module BlocksFacts.
Import Executor ExecutorWithExternalLauncher Sample.

Lemma int64_tensor_in_range (v : Z) : in_int64 v → int64_tensor v = inr v.
Proof.
  intros [Hlo Hhi]. unfold int64_tensor.
  rewrite (proj2 (Z.leb_le _ _) Hlo), (proj2 (Z.ltb_lt _ _) Hhi). reflexivity.
Qed.

Lemma joined_in_range (others : list (Z * Z)) :
  Forall (λ report, in_int64 report.1 ∧ in_int64 report.2) others →
  joined others = inr others.
Proof.
  induction 1 as [| [a b] rest [Ha Hb] _ IH]; [reflexivity |].
  cbn [fst snd] in Ha, Hb. cbn [joined]. unfold tensors_of. cbn [fst snd].
  rewrite (int64_tensor_in_range a Ha), (int64_tensor_in_range b Hb).
  cbv [mbind raising_bind]. by rewrite IH.
Qed.

Lemma all_reduce_MIN_minimum (tensor : Z) (others : list Z) :
  minimum_of (tensor :: others) (all_reduce_MIN tensor others).
Proof.
  unfold all_reduce_MIN, minimum_of.
  induction others as [| y others [IHin IHle]]; cbn [foldr].
  - split; [apply list_elem_of_here |].
    intros x Hx. apply list_elem_of_singleton in Hx. lia.
  - split.
    + destruct (Z.min_spec y (foldr Z.min tensor others)) as [[_ ->] | [_ ->]].
      * apply list_elem_of_further, list_elem_of_here.
      * apply elem_of_cons in IHin as [-> | Hin].
        -- apply list_elem_of_here.
        -- by do 2 apply list_elem_of_further.
    + intros x Hx.
      apply elem_of_cons in Hx as [-> | Hx].
      * etrans; [apply Z.le_min_r | apply IHle, list_elem_of_here].
      * apply elem_of_cons in Hx as [-> | Hx].
        -- apply Z.le_min_l.
        -- etrans; [apply Z.le_min_r | by apply IHle, list_elem_of_further].
Qed.

Lemma minimum_of_unique (l : list Z) (m m' : Z) :
  minimum_of l m → minimum_of l m' → m = m'.
Proof.
  intros [Hin Hle] [Hin' Hle'].
  apply Z.le_antisymm; [by apply Hle | by apply Hle'].
Qed.

Lemma minimum_of_Permutation (l l' : list Z) (m : Z) :
  l ≡ₚ l' → minimum_of l m → minimum_of l' m.
Proof.
  intros Hperm [Hin Hle]. split.
  - by rewrite <- Hperm.
  - intros x Hx. apply Hle. by rewrite Hperm.
Qed.

(** On every rank the reduction yields the least of all ranks' values. *)
Lemma all_reduce_MIN_on_rank (values : list Z) (i : nat) (v : Z) :
  values !! i = Some v →
  minimum_of values (all_reduce_MIN v (delete i values)).
Proof.
  intros Hi.
  apply (minimum_of_Permutation (v :: delete i values)).
  - symmetry. by apply delete_Permutation.
  - apply all_reduce_MIN_minimum.
Qed.

(** C7.  In a world whose ranks hold the local reports [reports] (each
    within the 64-bit range), [determine_num_available_blocks] returns on
    every rank the same pair: the least device-block count of all reports
    and, separately, the least host-block count of all reports.  For the
    reports (10,20), (8,25), (9,22) that pair is (8,20) on each of the three
    ranks. *)
Theorem determine_num_available_blocks_minimum (reports : list (Z * Z)) :
  reports ≠ [] →
  Forall (λ report, in_int64 report.1 ∧ in_int64 report.2) reports →
  (∃ a b,
     minimum_of reports.*1 a ∧ minimum_of reports.*2 b
     ∧ ∀ i, (i < length reports)%nat → on_rank reports i = Some (inr (a, b)))
  ∧ on_rank sample_reports 0 = Some (inr (8, 20))
  ∧ on_rank sample_reports 1 = Some (inr (8, 20))
  ∧ on_rank sample_reports 2 = Some (inr (8, 20)).
Proof.
  intros Hne Hrange.
  split; [| repeat split].
  assert (Hrank : ∀ i report, reports !! i = Some report →
            on_rank reports i
            = Some (inr (all_reduce_MIN report.1 (delete i reports.*1),
                         all_reduce_MIN report.2 (delete i reports.*2)))).
  { intros i [a b] Hi. unfold on_rank, determine_num_available_blocks.
    rewrite Hi. cbn [mbind option_bind].
    pose proof (proj1 (Forall_lookup _ _) Hrange i _ Hi) as [Ha Hb].
    cbn [fst snd] in Ha, Hb |- *.
    rewrite (int64_tensor_in_range a Ha), (int64_tensor_in_range b Hb).
    rewrite (joined_in_range (delete i reports))
      by (by apply Forall_delete).
    cbv [mbind raising_bind]. rewrite !list_fmap_delete. reflexivity. }
  destruct reports as [| [a0 b0] rest]; [done |].
  exists (all_reduce_MIN a0 (delete 0%nat (((a0, b0) :: rest).*1))),
         (all_reduce_MIN b0 (delete 0%nat (((a0, b0) :: rest).*2))).
  split; [by apply all_reduce_MIN_on_rank |].
  split; [by apply all_reduce_MIN_on_rank |].
  intros i Hi.
  destruct (lookup_lt_is_Some_2 _ _ Hi) as [[a b] Hrep].
  rewrite (Hrank i (a, b) Hrep). do 3 f_equal.
  - apply (minimum_of_unique (((a0, b0) :: rest).*1)).
    + apply all_reduce_MIN_on_rank. by rewrite list_lookup_fmap, Hrep.
    + by apply all_reduce_MIN_on_rank.
  - apply (minimum_of_unique (((a0, b0) :: rest).*2)).
    + apply all_reduce_MIN_on_rank. by rewrite list_lookup_fmap, Hrep.
    + by apply all_reduce_MIN_on_rank.
Qed.

Lemma determine_num_available_blocks_minimum_witness :
  (∃ a b,
     minimum_of sample_reports.*1 a ∧ minimum_of sample_reports.*2 b
     ∧ ∀ i, (i < length sample_reports)%nat →
            on_rank sample_reports i = Some (inr (a, b)))
  ∧ on_rank sample_reports 0 = Some (inr (8, 20))
  ∧ on_rank sample_reports 1 = Some (inr (8, 20))
  ∧ on_rank sample_reports 2 = Some (inr (8, 20)).
Proof.
  apply (determine_num_available_blocks_minimum sample_reports).
  - discriminate.
  - repeat constructor; cbn; lia.
Defined.

End BlocksFacts.

(** * Properties of the command-line helpers *)

Module UtilsFacts.
Import Utils.

(** ** cli_env_setup *)

(** X2.  After [cli_env_setup] the variable
    [VLLM_WORKER_MULTIPROC_METHOD] is set: to the value it had, if it had
    one (even an empty one), and to [spawn] otherwise.  No other variable
    changes, and a second call changes nothing. *)
Theorem cli_env_setup_sets_once (environ : gmap string string) :
  cli_env_setup environ !! "VLLM_WORKER_MULTIPROC_METHOD"
  = Some (default "spawn" (environ !! "VLLM_WORKER_MULTIPROC_METHOD"))
  ∧ (∀ name, name ≠ "VLLM_WORKER_MULTIPROC_METHOD" →
             cli_env_setup environ !! name = environ !! name)
  ∧ cli_env_setup (cli_env_setup environ) = cli_env_setup environ.
Proof.
  unfold cli_env_setup.
  destruct (environ !! "VLLM_WORKER_MULTIPROC_METHOD") as [v |] eqn:Hv.
  - rewrite Hv. by repeat split.
  - rewrite lookup_insert_eq. repeat split.
    + intros name Hname. by rewrite lookup_insert_ne.
Qed.

(** ** _validate_truncation_size *)

(** X3.  [_validate_truncation_size] returns [None] exactly for [None];
    for a number it returns a truncation size that never exceeds
    [max_model_len]: the number itself, or [max_model_len] for any number
    up to -1.  It raises exactly for a number above [max_model_len] that is
    not negative, and then leaves [tokenization_kwargs] as it was. *)
Theorem validate_truncation_size_result
    (max_model_len : Z) (truncate_prompt_tokens : option Z)
    (tokenization_kwargs : option (gmap string kwarg)) :
  match _validate_truncation_size max_model_len truncate_prompt_tokens
          tokenization_kwargs with
  | (inr None, _) => truncate_prompt_tokens = None
  | (inr (Some size), _) =>
      ∃ t, truncate_prompt_tokens = Some t
           ∧ size ≤ max_model_len
           ∧ size = (if bool_decide (t ≤ -1) then max_model_len else t)
  | (inl e, kwargs) =>
      ∃ t, truncate_prompt_tokens = Some t
           ∧ 0 ≤ t ∧ max_model_len < t
           ∧ e = ValueError (truncation_message t max_model_len)
           ∧ kwargs = tokenization_kwargs
  end.
Proof.
  unfold _validate_truncation_size.
  destruct truncate_prompt_tokens as [t |]; [| reflexivity].
  destruct (Z.leb_spec t (-1)) as [Hneg | Hpos]; cbv zeta.
  - rewrite Z.gtb_ltb, Z.ltb_irrefl.
    cbv [mbind M_bind modify mret M_ret].
    exists t. rewrite bool_decide_eq_true_2 by lia. by repeat split.
  - rewrite Z.gtb_ltb.
    destruct (Z.ltb_spec max_model_len t) as [Hbig | Hfits].
    + exists t. repeat split; try lia; reflexivity.
    + cbv [mbind M_bind modify mret M_ret].
      exists t. rewrite bool_decide_eq_false_2 by lia.
      repeat split; try lia; reflexivity.
Qed.

(** X4.  When [_validate_truncation_size] returns and the caller passed a
    dictionary, the dictionary tells the same story as the result: for a
    size, [truncation] is [True] and [max_length] is that size; for [None],
    [truncation] is [False] and [max_length] is left as it was (an older
    entry is not removed).  Every other key keeps its value, and no
    dictionary is created when the caller passed none. *)
Theorem validate_truncation_size_kwargs
    (max_model_len : Z) (truncate_prompt_tokens result : option Z)
    (tokenization_kwargs after : option (gmap string kwarg)) :
  _validate_truncation_size max_model_len truncate_prompt_tokens
    tokenization_kwargs = (inr result, after) →
  match tokenization_kwargs, after with
  | None, None => True
  | Some old, Some new =>
      new !! "truncation" = Some (KBool (bool_decide (is_Some result)))
      ∧ new !! "max_length"
        = match result with
          | Some size => Some (KInt size)
          | None => old !! "max_length"
          end
      ∧ ∀ key, key ≠ "truncation" → key ≠ "max_length" →
               new !! key = old !! key
  | _, _ => False
  end.
Proof.
  unfold _validate_truncation_size.
  destruct truncate_prompt_tokens as [t |].
  - cbv zeta. destruct (_ >? _); [discriminate |].
    cbv [mbind M_bind modify mret M_ret]. intros [= <- <-].
    destruct tokenization_kwargs as [old |]; [| done]. cbn [fmap option_fmap option_map].
    split; [by rewrite lookup_insert_ne, lookup_insert_eq |].
    split; [by rewrite lookup_insert_eq |].
    intros key Htr Hml. by rewrite !lookup_insert_ne.
  - cbv [mbind M_bind modify mret M_ret]. intros [= <- <-].
    destruct tokenization_kwargs as [old |]; [| done]. cbn [fmap option_fmap option_map].
    split; [by rewrite lookup_insert_eq |].
    split; [by rewrite lookup_insert_ne |].
    intros key Htr Hml. by rewrite lookup_insert_ne.
Qed.

Lemma validate_truncation_size_kwargs_witness :
  match Some ({["padding" := KBool true]} : gmap string kwarg),
        Some (<["max_length" := KInt 512]>
                (<["truncation" := KBool true]>
                   ({["padding" := KBool true]} : gmap string kwarg))) with
  | None, None => True
  | Some old, Some new =>
      new !! "truncation" = Some (KBool (bool_decide (is_Some (Some 512))))
      ∧ new !! "max_length" = Some (KInt 512)
      ∧ ∀ key, key ≠ "truncation" → key ≠ "max_length" →
               new !! key = old !! key
  | _, _ => False
  end.
Proof.
  exact (validate_truncation_size_kwargs 4096 (Some 512) (Some 512)
           (Some {["padding" := KBool true]}) _ eq_refl).
Defined.

Lemma set_truncation_twice (old : gmap string kwarg) (b v : kwarg) :
  <["max_length" := v]>
    (<["truncation" := b]> (<["max_length" := v]> (<["truncation" := b]> old)))
  = <["max_length" := v]> (<["truncation" := b]> old).
Proof.
  apply map_eq. intros key.
  destruct (decide (key = "max_length")) as [-> | Hml];
    [by rewrite !lookup_insert_eq |].
  rewrite !(lookup_insert_ne _ "max_length") by done.
  destruct (decide (key = "truncation")) as [-> | Htr];
    [by rewrite !lookup_insert_eq |].
  by rewrite !lookup_insert_ne.
Qed.

(** X5.  A size that [_validate_truncation_size] has returned is accepted
    unchanged when it is validated again against the same [max_model_len],
    and the second call leaves the dictionary as the first one left it. *)
Theorem validate_truncation_size_idempotent
    (max_model_len : Z) (truncate_prompt_tokens result : option Z)
    (tokenization_kwargs after : option (gmap string kwarg)) :
  _validate_truncation_size max_model_len truncate_prompt_tokens
    tokenization_kwargs = (inr result, after) →
  _validate_truncation_size max_model_len result after = (inr result, after).
Proof.
  unfold _validate_truncation_size.
  destruct truncate_prompt_tokens as [t |].
  - cbv zeta.
    destruct (Z.leb_spec t (-1)) as [Hneg | Hpos]; rewrite Z.gtb_ltb.
    + rewrite Z.ltb_irrefl.
      cbv [mbind M_bind modify mret M_ret]. intros [= <- <-].
      rewrite Z.gtb_ltb.
      destruct (max_model_len <=? -1); rewrite Z.ltb_irrefl;
        destruct tokenization_kwargs as [old |];
        cbn [fmap option_fmap option_map]; try reflexivity;
        by rewrite set_truncation_twice.
    + destruct (Z.ltb_spec max_model_len t) as [Hbig | Hfits];
        [discriminate |].
      cbv [mbind M_bind modify mret M_ret]. intros [= <- <-].
      rewrite (proj2 (Z.leb_gt _ _)), Z.gtb_ltb, (proj2 (Z.ltb_ge _ _)) by lia.
      destruct tokenization_kwargs as [old |];
        cbn [fmap option_fmap option_map]; try reflexivity.
      by rewrite set_truncation_twice.
  - cbv [mbind M_bind modify mret M_ret]. intros [= <- <-].
    destruct tokenization_kwargs as [old |];
      cbn [fmap option_fmap option_map]; try reflexivity.
    by rewrite insert_insert_eq.
Qed.

Lemma validate_truncation_size_idempotent_witness :
  _validate_truncation_size 4096 (Some 4096)
    (Some (<["max_length" := KInt 4096]>
             (<["truncation" := KBool true]> (∅ : gmap string kwarg))))
  = (inr (Some 4096),
     Some (<["max_length" := KInt 4096]>
             (<["truncation" := KBool true]> (∅ : gmap string kwarg)))).
Proof.
  exact (validate_truncation_size_idempotent 4096 (Some (-1)) (Some 4096)
           (Some ∅) _ eq_refl).
Defined.

(** ** get_max_tokens *)

Lemma foldl_min_le (v : Z) (rest : list Z) :
  foldl Z.min v rest ≤ v ∧ ∀ x, x ∈ rest → foldl Z.min v rest ≤ x.
Proof.
  revert v. induction rest as [| y rest IH]; intros v; cbn [foldl].
  - split; [lia |]. intros x Hx. by apply elem_of_nil in Hx.
  - destruct (IH (Z.min v y)) as [Hle Hall]. split; [lia |].
    intros x Hx. apply elem_of_cons in Hx as [-> | Hx]; [lia | by apply Hall].
Qed.

Lemma foldl_min_elem (v : Z) (rest : list Z) :
  foldl Z.min v rest ∈ v :: rest.
Proof.
  revert v. induction rest as [| y rest IH]; intros v; cbn [foldl].
  - apply list_elem_of_here.
  - specialize (IH (Z.min v y)).
    apply elem_of_cons in IH as [-> | Hin].
    + destruct (Z.min_spec v y) as [[_ ->] | [_ ->]].
      * apply list_elem_of_here.
      * apply list_elem_of_further, list_elem_of_here.
    + by do 2 apply list_elem_of_further.
Qed.

(** X6.  [get_max_tokens] always returns (its minimum is never taken over
    nothing), and what it returns is the least of the limits in force: it
    is at most the room left in the context ([max_model_len -
    input_length]), at most the platform's limit, at most the request's own
    limit and at most the default [max_tokens] where these are given, and
    it is one of them. *)
Theorem get_max_tokens_least_limit
    (get_max_output_tokens : Z → Z) (max_model_len : Z) (req : request)
    (input_length : Z) (default_sampling_params : gmap string Z) :
  let requested := py_or (max_completion_tokens req) (max_tokens req) in
  let default_limit := default_sampling_params !! "max_tokens" in
  ∃ n,
    get_max_tokens get_max_output_tokens max_model_len req input_length
      default_sampling_params = inr n
    ∧ n ≤ max_model_len - input_length
    ∧ n ≤ get_max_output_tokens input_length
    ∧ (∀ v, requested = Some v → n ≤ v)
    ∧ (∀ v, default_limit = Some v → n ≤ v)
    ∧ (n = max_model_len - input_length
       ∨ n = get_max_output_tokens input_length
       ∨ requested = Some n
       ∨ default_limit = Some n).
Proof.
  intros requested default_limit.
  unfold get_max_tokens, min_not_none. fold requested. fold default_limit.
  cbn [omap list_omap id].
  set (rest := omap id [requested; Some (get_max_output_tokens input_length);
                        default_limit]).
  assert (Hrest : ∀ x, x ∈ rest ↔
            requested = Some x ∨ x = get_max_output_tokens input_length
            ∨ default_limit = Some x).
  { intros x. subst rest. cbn [omap list_omap id].
    destruct requested as [r |], default_limit as [d |]; cbn;
      rewrite ?elem_of_cons, ?elem_of_nil;
      intuition (try discriminate; congruence). }
  destruct (foldl_min_le (max_model_len - input_length) rest) as [Hfirst Hall].
  exists (foldl Z.min (max_model_len - input_length) rest).
  split; [reflexivity |].
  split; [exact Hfirst |].
  split; [apply Hall, Hrest; auto |].
  split; [intros v Hv; apply Hall, Hrest; auto |].
  split; [intros v Hv; apply Hall, Hrest; auto |].
  pose proof (foldl_min_elem (max_model_len - input_length) rest) as Hin.
  apply elem_of_cons in Hin as [-> | Hin]; [by left |].
  apply Hrest in Hin. tauto.
Qed.

(** X7.  A [max_completion_tokens] other than 0 is the request's limit and
    hides [max_tokens]; [max_completion_tokens = 0] counts as not given, so
    the limit is then [max_tokens] (and none at all if that is [None]). *)
Theorem get_max_tokens_completion_tokens_first
    (get_max_output_tokens : Z → Z) (max_model_len : Z)
    (completion_tokens : Z) (tokens : option Z)
    (input_length : Z) (default_sampling_params : gmap string Z) :
  get_max_tokens get_max_output_tokens max_model_len
    (mkRequest (Some completion_tokens) tokens) input_length
    default_sampling_params
  = get_max_tokens get_max_output_tokens max_model_len
      (if bool_decide (completion_tokens = 0)
       then mkRequest None tokens
       else mkRequest (Some completion_tokens) None)
      input_length default_sampling_params.
Proof.
  unfold get_max_tokens, py_or. cbn [max_completion_tokens max_tokens].
  destruct (Z.eqb_spec completion_tokens 0) as [-> | Hne].
  - reflexivity.
  - rewrite bool_decide_eq_false_2 by done.
    cbn [max_completion_tokens max_tokens].
    by rewrite (proj2 (Z.eqb_neq _ _) Hne).
Qed.

(** ** _output_with_pager *)

(** X8.  [_output_with_pager] launches [less -R] first, launches [more]
    only when [less -R] failed with an error it catches, and prints the
    text itself only when both failed that way; once a pager has shown the
    text nothing else is launched or printed.  The only exception that
    leaves the function is one a pager raised outside the caught classes,
    and then nothing is tried after it. *)
Theorem output_with_pager_falls_back
    (popen : list string → string → attempt) (text : string) :
  _output_with_pager popen text =
  match popen ["less"; "-R"] text with
  | Shown => (None, [Pager ["less"; "-R"] text])
  | Crashed e => (Some e, [Pager ["less"; "-R"] text])
  | Failed =>
      match popen ["more"] text with
      | Shown => (None, [Pager ["less"; "-R"] text; Pager ["more"] text])
      | Crashed e =>
          (Some e, [Pager ["less"; "-R"] text; Pager ["more"] text])
      | Failed =>
          (None, [Pager ["less"; "-R"] text; Pager ["more"] text; Print text])
      end
  end.
Proof.
  unfold _output_with_pager, pagers. cbn [try_pagers].
  change (split_words EmptyString "less -R") with ["less"; "-R"].
  change (split_words EmptyString "more") with ["more"].
  destruct (popen ["less"; "-R"] text); try reflexivity.
  destruct (popen ["more"] text); reflexivity.
Qed.

Lemma output_with_pager_returns
    (popen : list string → string → attempt) (text : string) :
  (∀ argv t e, popen argv t ≠ Crashed e) →
  fst (_output_with_pager popen text) = None.
Proof.
  intros Hsafe. rewrite output_with_pager_falls_back.
  destruct (popen ["less"; "-R"] text) eqn:Hless;
    [reflexivity | | by apply Hsafe in Hless].
  destruct (popen ["more"] text) eqn:Hmore;
    [reflexivity | reflexivity | by apply Hsafe in Hmore].
Qed.

(** ** show_filtered_argument_or_group_from_help *)

Section Help.

Context `{!Argparse}.
Variable popen : list string → string → attempt.

Lemma keyword_of (search_keyword : string) :
  split_once "=" ("--help=" +:+ search_keyword) !! 1%nat = Some search_keyword.
Proof. reflexivity. Qed.

Lemma find_first_help (before after : list string) (arg : string) :
  Forall (λ a, String.prefix "--help=" a = false) before →
  String.prefix "--help=" arg = true →
  find (String.prefix "--help=") (before ++ arg :: after) = Some arg.
Proof.
  intros Hbefore Harg.
  induction Hbefore as [| a before Ha _ IH]; cbn [app find].
  - by rewrite Harg.
  - by rewrite Ha.
Qed.

(** X9.  The function does nothing (it returns, with no output) when the
    command line does not have the subcommand's words right after the
    program name, whatever [--help=] arguments it carries, and also when it
    has them but carries no argument that starts with [--help=]. *)
Theorem show_help_inactive
    (argv : list string) (p : parser) (subcommand_name : list string) :
  (length argv ≤ length subcommand_name)%nat
  ∨ take (length subcommand_name) (drop 1 argv) ≠ subcommand_name
  ∨ Forall (λ a, String.prefix "--help=" a = false) argv →
  show_filtered_argument_or_group_from_help popen argv p subcommand_name
  = (Returns, []).
Proof.
  intros Hwhy. unfold show_filtered_argument_or_group_from_help.
  destruct (bool_decide (length argv ≤ length subcommand_name)%nat)
    eqn:Hlen; [reflexivity |].
  destruct (bool_decide (take (length subcommand_name) (drop 1 argv)
                         = subcommand_name)) eqn:Hsub; [| reflexivity].
  cbn [orb negb].
  apply bool_decide_eq_false in Hlen. apply bool_decide_eq_true in Hsub.
  destruct Hwhy as [Hshort | [Hother | Hnone]]; [done | done |].
  clear Hlen Hsub.
  induction Hnone as [| a argv Ha _ IH]; [reflexivity |].
  cbn [find]. by rewrite Ha.
Qed.

(** X10.  When the command line is the subcommand's, only its first
    argument starting with [--help=] is looked at: the outcome is that of
    this argument alone, whatever follows it (further [--help=] arguments
    included). *)
Theorem show_help_first_keyword
    (prog_name : string) (subcommand_name before after : list string)
    (search_keyword : string) (p : parser) :
  Forall (λ a, String.prefix "--help=" a = false)
         (prog_name :: subcommand_name ++ before) →
  show_filtered_argument_or_group_from_help popen
    (prog_name :: subcommand_name ++ before
     ++ ("--help=" +:+ search_keyword) :: after)
    p subcommand_name
  = help_for popen p ("--help=" +:+ search_keyword).
Proof.
  intros Hbefore. unfold show_filtered_argument_or_group_from_help.
  rewrite bool_decide_eq_false_2
    by (cbn [length]; rewrite !length_app; cbn [length]; lia).
  lazymatch goal with |- context [drop 1 (prog_name :: ?l)] =>
    change (drop 1 (prog_name :: l)) with l end.
  rewrite take_app_length, bool_decide_eq_true_2 by done.
  cbn [orb negb].
  change (prog_name :: subcommand_name ++ before
          ++ ("--help=" +:+ search_keyword) :: after)
    with ((prog_name :: subcommand_name) ++ before
          ++ ("--help=" +:+ search_keyword) :: after).
  rewrite app_assoc.
  assert (Hfind :
    find (String.prefix "--help=")
      (((prog_name :: subcommand_name) ++ before)
       ++ ("--help=" +:+ search_keyword) :: after)
    = Some ("--help=" +:+ search_keyword)).
  { apply find_first_help; [| by destruct search_keyword].
    by rewrite <- app_comm_cons. }
  by rewrite Hfind.
Qed.

(** X11.  For an argument [--help=<keyword>], on a machine whose pagers
    raise nothing but the errors that are caught, the function always ends
    the process, with status 0 or 1.  The status is 1 exactly when the
    keyword is neither [page] nor [listgroup], no titled group has that
    title up to case, and no option string contains it up to case; in that
    case no pager is launched and exactly two lines are printed. *)
Theorem help_for_exit_status (p : parser) (search_keyword : string) :
  (∀ argv t e, popen argv t ≠ Crashed e) →
  let nothing_matches :=
    search_keyword ≠ "page" ∧ search_keyword ≠ "listgroup"
    ∧ Forall (λ g, group_matches search_keyword g = false) (_action_groups p)
    ∧ matched_actions p search_keyword = [] in
  ∃ code out,
    help_for popen p ("--help=" +:+ search_keyword) = (Exits code, out)
    ∧ (code = 0 ∨ code = 1)
    ∧ (code = 1 ↔ nothing_matches)
    ∧ (code = 1 →
       out = [Print (newline +:+ "No group or parameter matching '"
                     +:+ search_keyword +:+ "'");
              Print "Tip: use `--help=listgroup` to view all groups."]).
Proof.
  intros Hsafe nothing_matches. subst nothing_matches.
  assert (Hpage : ∀ text,
    ∃ out, page_and_exit popen text 0 = (Exits 0, out)).
  { intros text. unfold page_and_exit.
    pose proof (output_with_pager_returns popen text Hsafe) as Hret.
    destruct (_output_with_pager popen text) as [r out].
    cbn [fst] in Hret. subst r. by exists out. }
  unfold help_for. rewrite keyword_of.
  destruct (String.eqb_spec search_keyword "page") as [-> | Hnp].
  { destruct (Hpage (format_help p)) as [out ->].
    exists 0, out. repeat split; try (by left); try done; naive_solver. }
  destruct (String.eqb_spec search_keyword "listgroup") as [-> | Hnl].
  { match goal with |- context [page_and_exit popen ?t 0] =>
      destruct (Hpage t) as [out ->] end.
    exists 0, out. repeat split; try (by left); try done; naive_solver. }
  destruct (find (group_matches search_keyword) (_action_groups p))
    as [g |] eqn:Hfind.
  { match goal with |- context [page_and_exit popen ?t 0] =>
      destruct (Hpage t) as [out ->] end.
    exists 0, out. split; [done |]. split; [by left |].
    split; [| done]. split; [done |].
    intros (_ & _ & Hgroups & _).
    apply find_some in Hfind as [Hin Hg].
    apply list_elem_of_In in Hin.
    rewrite Forall_forall in Hgroups. by rewrite (Hgroups g Hin) in Hg. }
  assert (Hgroups : Forall (λ g, group_matches search_keyword g = false)
                      (_action_groups p)).
  { apply Forall_forall. intros g Hin. apply list_elem_of_In in Hin.
    pose proof (find_none _ _ Hfind g Hin) as Hg. exact Hg. }
  destruct (matched_actions p search_keyword) as [| a matched] eqn:Hmatched.
  - eexists 1, _. split; [reflexivity |]. split; [by right |].
    split; [| done]. split; [done |]. done.
  - match goal with |- context [page_and_exit popen ?t 0] =>
      destruct (Hpage t) as [out ->] end.
    exists 0, out. split; [done |]. split; [by left |].
    split; [| done]. split; [done |].
    intros (_ & _ & _ & Hnil). discriminate.
Qed.

End Help.

Lemma show_help_inactive_witness :
  show_filtered_argument_or_group_from_help (H := plain_argparse) less_works
    ["vllm"; "bench"; "--help=max"] serve_parser ["serve"]
  = (Returns, []).
Proof.
  apply (show_help_inactive (H := plain_argparse) less_works).
  right. left. discriminate.
Defined.

Lemma show_help_first_keyword_witness :
  show_filtered_argument_or_group_from_help (H := plain_argparse) less_works
    ("vllm" :: ["serve"] ++ ["--port"]
     ++ ("--help=" +:+ "max") :: ["--help=page"])
    serve_parser ["serve"]
  = help_for (H := plain_argparse) less_works serve_parser ("--help=" +:+ "max").
Proof.
  apply (show_help_first_keyword (H := plain_argparse) less_works
           "vllm" ["serve"] ["--port"] ["--help=page"] "max" serve_parser).
  repeat constructor.
Defined.

Lemma help_for_exit_status_witness :
  ∃ code out,
    help_for (H := plain_argparse) no_pager serve_parser
      ("--help=" +:+ "tokenizer") = (Exits code, out)
    ∧ (code = 0 ∨ code = 1)
    ∧ (code = 1 ↔
       "tokenizer" ≠ "page" ∧ "tokenizer" ≠ "listgroup"
       ∧ Forall (λ g, group_matches (H := plain_argparse) "tokenizer" g = false)
                (_action_groups serve_parser)
       ∧ matched_actions (H := plain_argparse) serve_parser "tokenizer" = [])
    ∧ (code = 1 →
       out = [Print (newline +:+ "No group or parameter matching '"
                     +:+ "tokenizer" +:+ "'");
              Print "Tip: use `--help=listgroup` to view all groups."]).
Proof.
  apply (help_for_exit_status (H := plain_argparse) no_pager serve_parser
           "tokenizer").
  intros argv t e. discriminate.
Defined.

End UtilsFacts.

(** * Further properties of the executors *)

Module ExecutorMoreFacts.
Import Executor UniProcExecutor.

Section Generic.

Context {W answer : Type} `{!WorkerAPI W answer} `{!Host} `{!ExecutorBase W}.

Lemma call_driver_worker_run
    (self : executor W) (w w' : W) (m : method) (args : list rpc_arg)
    (kwargs : list (string * rpc_arg)) (r : exn + answer) :
  driver_worker self = Some w →
  run_method w m args kwargs = (r, w') →
  call_driver_worker m args kwargs self =
    (r, mkExecutor (self_vllm_config self) (Some w') (is_shutdown self)
          (trace self ++ [mkCall m args kwargs])).
Proof.
  intros Hw Hrun. unfold call_driver_worker. by rewrite Hw, Hrun.
Qed.

(** X12.  [UniProcExecutor._init_executor] stops at the first bootstrap
    call that raises: it raises that very exception, the calls after it are
    never made, and the executor is left holding the worker wrapper (it is
    not reset).  [w1], [w2], [w3] and [r1], [r2], [r3] name what the three
    calls do to the worker and answer, were they made in turn. *)
Theorem uniproc_bootstrap_stops_at_failure
    (self : executor W) (local_rank : Z) (w1 w2 w3 : W)
    (r1 r2 r3 : exn + answer) :
  let vllm_config := self_vllm_config self in
  let w0 := WorkerWrapperBase vllm_config 0 in
  let init := mkInitKwargs vllm_config local_rank 0 local_init_method true in
  let left_with (w : W) (calls : nat) :=
    mkExecutor vllm_config (Some w) (is_shutdown self)
      (trace self ++ take calls (bootstrap_calls init)) in
  match split ":" (device vllm_config) !! 1%nat with
  | Some index => int index = Some local_rank
  | None => local_rank = 0
  end →
  run_method w0 (MethodName "init_worker") [InitKwargs [init]] [] = (r1, w1) →
  run_method w1 (MethodName "init_device") [] [] = (r2, w2) →
  run_method w2 (MethodName "load_model") [] [] = (r3, w3) →
  _init_executor self =
  match r1, r2, r3 with
  | inl e, _, _ => (inl e, left_with w1 1%nat)
  | inr _, inl e, _ => (inl e, left_with w2 2%nat)
  | inr _, inr _, inl e => (inl e, left_with w3 3%nat)
  | inr _, inr _, inr _ => (inr tt, left_with w3 3%nat)
  end.
Proof.
  intros vllm_config w0 init left_with Hrank H1 H2 H3.
  unfold _init_executor.
  cbv [mbind M_bind gets modify]. fold vllm_config. fold w0.
  assert (Hlr :
    (match split ":" (device vllm_config) !! 1%nat with
     | Some index => py_int index
     | None => mret 0
     end) (set_driver_worker w0 self)
    = (inr local_rank, set_driver_worker w0 self)).
  { destruct (split ":" (device vllm_config) !! 1%nat) as [index |].
    - unfold py_int. rewrite Hrank. reflexivity.
    - subst local_rank. reflexivity. }
  rewrite Hlr. fold init.
  unfold collective_rpc. cbv [mbind M_bind mret M_ret default].
  rewrite (call_driver_worker_run (set_driver_worker w0 self) w0 w1 _ _ _ r1
             eq_refl H1).
  destruct r1 as [e1 | a1]; [reflexivity |].
  erewrite (call_driver_worker_run _ w1 w2 _ _ _ r2); [| reflexivity | exact H2].
  destruct r2 as [e2 | a2].
  { subst left_with.
    cbn [self_vllm_config is_shutdown trace take bootstrap_calls set_driver_worker].
    by rewrite <- app_assoc. }
  erewrite (call_driver_worker_run _ w2 w3 _ _ _ r3); [| reflexivity | exact H3].
  destruct r3 as [e3 | a3]; subst left_with;
    cbn [self_vllm_config is_shutdown trace take bootstrap_calls set_driver_worker];
    by rewrite <- !app_assoc.
Qed.

(** X14.  An [ExecutorWithExternalLauncher] with a zero delay factor that
    runs under V1 with the multiprocessing layer on raises the second
    assertion error and leaves the executor as it was: no worker wrapper is
    built, no worker method is called. *)
Theorem external_launcher_rejects_multiprocessing (self : executor W) :
  PrimFloat.eqb (delay_factor (self_vllm_config self)) 0 = true →
  VLLM_USE_V1 = true →
  VLLM_ENABLE_V1_MULTIPROCESSING = true →
  ExecutorWithExternalLauncher._init_executor self
  = (inl (AssertionError ExecutorWithExternalLauncher.multiprocessing_message),
     self).
Proof.
  intros Hdelay Hv1 Hmp. unfold ExecutorWithExternalLauncher._init_executor.
  cbv [mbind M_bind gets py_assert mret M_ret raise].
  by rewrite Hdelay, Hv1, Hmp.
Qed.


(** X16.  [reinitialize_distributed] first has the worker reconfigure.  If
    the worker raises, that exception is raised and [shutdown] is not run;
    if the new data-parallel rank is not the shutdown sentinel, the method
    returns with the executor otherwise untouched; [shutdown] runs only for
    the sentinel, after the worker has reconfigured. *)
Theorem reinitialize_distributed_cases
    (self : executor W) (req : ReconfigureDistributedRequest)
    (w w' : W) (r : exn + answer) :
  let reconfigured :=
    mkExecutor (self_vllm_config self) (Some w') (is_shutdown self)
      (trace self
       ++ [mkCall (MethodName "reinitialize_distributed") [Reconfigure req] []]) in
  driver_worker self = Some w →
  run_method w (MethodName "reinitialize_distributed") [Reconfigure req] []
    = (r, w') →
  reinitialize_distributed req self =
  match r with
  | inl e => (inl e, reconfigured)
  | inr _ =>
      if bool_decide (new_data_parallel_rank req = SHUTDOWN_CURRENT_RANK)
      then shutdown reconfigured
      else (inr tt, reconfigured)
  end.
Proof.
  intros reconfigured Hw Hrun.
  unfold reinitialize_distributed. cbv [mbind M_bind].
  rewrite (call_driver_worker_run self w w' _ _ _ r Hw Hrun).
  destruct r as [e | a]; [reflexivity |].
  destruct (Z.eqb_spec (new_data_parallel_rank req) SHUTDOWN_CURRENT_RANK)
    as [Heq | Hne].
  - by rewrite bool_decide_eq_true_2.
  - by rewrite bool_decide_eq_false_2.
Qed.

(** X17.  [UniProcExecutor.collective_rpc] does not use its [timeout]
    argument (with or without one it does the same), takes [kwargs=None] for
    the empty dictionary, and on an executor whose [driver_worker] was never
    assigned raises [AttributeError] without calling anything. *)
Theorem collective_rpc_arguments
    (self : executor W) (m : method) (timeout : option float)
    (args : list rpc_arg) (kwargs : option (list (string * rpc_arg))) :
  collective_rpc m timeout args kwargs self
  = collective_rpc m None args (Some (default [] kwargs)) self
  ∧ (driver_worker self = None →
     collective_rpc m timeout args kwargs self
     = (inl (AttributeError "driver_worker"), self)).
Proof.
  split; [by destruct kwargs |].
  intros Hnone. unfold collective_rpc, call_driver_worker.
  cbv [mbind M_bind]. by rewrite Hnone.
Qed.

End Generic.

(** ** On the sample deployments *)

Import Sample MoreSamples.

Lemma uniproc_bootstrap_stops_at_failure_witness :
  _init_executor (WorkerAPI0 := no_device_worker) (new_executor "cuda:1" 0)
  = (inl (RuntimeError "no device"),
     mkExecutor (mkConfig "cuda:1" 0) (Some 2%nat) false
       (take 2 (bootstrap_calls (sample_init "cuda:1" 1)))).
Proof.
  exact (uniproc_bootstrap_stops_at_failure (WorkerAPI0 := no_device_worker)
           (new_executor "cuda:1" 0) 1 1%nat 2%nat 3%nat
           (inr 0%nat) (inl (RuntimeError "no device")) (inr 2%nat)
           eq_refl eq_refl eq_refl eq_refl).
Defined.

Lemma external_launcher_bootstrap_witness :
  ExecutorWithExternalLauncher._init_executor (new_executor "cuda" 0)
  = (inr tt,
     mkExecutor (mkConfig "cuda" 0) (Some 3%nat) false
       (bootstrap_calls (mkInitKwargs (mkConfig "cuda" 0) 1 1 "env://" true))).
Proof.
  exact (ExecutorFacts.external_launcher_bootstrap (new_executor "cuda" 0)
           "1" "1" 1 1 1%nat 2%nat 3%nat 0%nat 1%nat 2%nat
           eq_refl eq_refl eq_refl eq_refl eq_refl eq_refl
           eq_refl eq_refl eq_refl).
Defined.

Lemma external_launcher_rejects_multiprocessing_witness :
  ExecutorWithExternalLauncher._init_executor (H := multiprocessing_host)
    (new_executor "cuda" 0)
  = (inl (AssertionError ExecutorWithExternalLauncher.multiprocessing_message),
     new_executor "cuda" 0).
Proof.
  exact (external_launcher_rejects_multiprocessing (H := multiprocessing_host)
           (new_executor "cuda" 0) eq_refl eq_refl eq_refl).
Defined.


Lemma reinitialize_distributed_cases_witness :
  reinitialize_distributed keep_rank_request ready_executor
  = (inr tt,
     mkExecutor (mkConfig "cuda" 0) (Some 4%nat) false
       [mkCall (MethodName "reinitialize_distributed")
          [Reconfigure keep_rank_request] []]).
Proof.
  exact (reinitialize_distributed_cases ready_executor keep_rank_request
           3%nat 4%nat (inr 3%nat) eq_refl eq_refl).
Defined.

End ExecutorMoreFacts.

(** * Further properties of the request wrappers and of the capacity
      agreement *)

Module MoreFacts.
Import Entrypoints Executor ExecutorWithExternalLauncher MoreVocabulary.

(** ** determine_num_available_blocks *)

(** X18.  In a world in which every rank's report fits 64-bit integers
    (this rank's and the other ranks' alike, so that every rank reaches the
    two reductions), [determine_num_available_blocks] returns a pair that is
    in neither component above the rank's own report; alone in its world,
    the rank gets its own report back. *)
Theorem determine_num_available_blocks_at_most_local
    (a b : Z) (others : list (Z * Z)) :
  in_int64 a → in_int64 b →
  Forall (λ report, in_int64 report.1 ∧ in_int64 report.2) others →
  ∃ a' b',
    determine_num_available_blocks (a, b) others = inr (a', b')
    ∧ a' ≤ a ∧ b' ≤ b
    ∧ (others = [] → a' = a ∧ b' = b).
Proof.
  intros Ha Hb Hothers. unfold determine_num_available_blocks.
  rewrite (BlocksFacts.int64_tensor_in_range a Ha),
    (BlocksFacts.int64_tensor_in_range b Hb),
    (BlocksFacts.joined_in_range others Hothers).
  cbv [mbind raising_bind].
  eexists _, _. split; [reflexivity |].
  destruct (BlocksFacts.all_reduce_MIN_minimum a (others.*1)) as [_ Hale].
  destruct (BlocksFacts.all_reduce_MIN_minimum b (others.*2)) as [_ Hble].
  split; [apply Hale, list_elem_of_here |].
  split; [apply Hble, list_elem_of_here |].
  intros ->. split; reflexivity.
Qed.

Lemma determine_num_available_blocks_at_most_local_witness :
  ∃ a' b',
    determine_num_available_blocks (10, 20) [(8, 25); (9, 22)] = inr (a', b')
    ∧ a' ≤ 10 ∧ b' ≤ 20
    ∧ ([(8, 25); (9, 22)] = [] → a' = 10 ∧ b' = 20).
Proof.
  apply (determine_num_available_blocks_at_most_local 10 20 [(8, 25); (9, 22)]);
    [unfold in_int64; lia | unfold in_int64; lia |].
  repeat constructor; cbn; lia.
Defined.

(** ** Finding the request *)

(** X19.  The two wrappers find the same request whenever it is passed in
    one place only (second positional argument or keyword [raw_request]) or
    in both places alike; and when [with_cancellation] finds none (it raises
    [KeyError]), [load_aware_call] finds none either. *)
Theorem request_lookups_agree
    (args : list pyval) (kwargs : gmap string pyval) :
  args !! 1%nat = None ∨ kwargs !! "raw_request" = None
  ∨ args !! 1%nat = kwargs !! "raw_request" →
  match guard_request args kwargs with
  | inr request => raw_request_of args kwargs = request
  | inl e => e = KeyError "raw_request" ∧ raw_request_of args kwargs = PyNone
  end.
Proof.
  unfold guard_request, raw_request_of.
  destruct (args !! 1%nat) as [p |], (kwargs !! "raw_request") as [k |];
    cbn [default]; intros [H | [H | H]]; try discriminate; try done.
  by injection H as ->.
Qed.

Lemma request_lookups_agree_witness :
  raw_request_of [PyObj 1] {["raw_request" := PyRequest 0]} = PyRequest 0.
Proof.
  exact (request_lookups_agree [PyObj 1] {["raw_request" := PyRequest 0]}
           (or_introl eq_refl)).
Defined.

(** X20.  When a call carries both a second positional argument and the
    keyword [raw_request], the wrappers look in opposite orders:
    [with_cancellation] takes the positional argument, [load_aware_call] the
    keyword.  A keyword that holds [None] therefore makes [load_aware_call]
    raise its [ValueError] although a request was passed by position. *)
Theorem request_lookups_differ
    (func : list pyval → gmap string pyval → M app_state result)
    (args : list pyval) (kwargs : gmap string pyval)
    (positional keyword : pyval) (st : app_state) :
  args !! 1%nat = Some positional →
  kwargs !! "raw_request" = Some keyword →
  guard_request args kwargs = inr positional
  ∧ raw_request_of args kwargs = keyword
  ∧ (keyword = PyNone →
     load_aware_call func args kwargs st
     = (inl (ValueError "raw_request required when server load tracking is enabled"),
        st)).
Proof.
  intros Hp Hk. unfold guard_request, raw_request_of, load_aware_call.
  unfold raw_request_of. rewrite Hp, Hk. cbn [default].
  split; [done |]. split; [done |]. by intros ->.
Qed.

Lemma request_lookups_differ_witness :
  guard_request [PyObj 1; PyRequest 0] {["raw_request" := PyNone]}
  = inr (PyRequest 0)
  ∧ raw_request_of [PyObj 1; PyRequest 0] {["raw_request" := PyNone]} = PyNone
  ∧ (PyNone = PyNone →
     load_aware_call marking_handler [PyObj 1; PyRequest 0]
       {["raw_request" := PyNone]} tracking_on
     = (inl (ValueError "raw_request required when server load tracking is enabled"),
        tracking_on)).
Proof.
  exact (request_lookups_differ marking_handler [PyObj 1; PyRequest 0]
           {["raw_request" := PyNone]} (PyRequest 0) PyNone tracking_on
           eq_refl eq_refl).
Defined.

(** X21.  A call of the [with_cancellation] wrapper that carries no request
    (fewer than two positional arguments and no keyword [raw_request])
    raises [KeyError] at once: neither the handler task nor the watcher task
    is created, so the handler does not run at all. *)
Theorem with_cancellation_without_request
    (handler_result : outcome) (args : list pyval)
    (kwargs : gmap string pyval) (finished : list task) :
  (length args < 2)%nat →
  kwargs !! "raw_request" = None →
  with_cancellation handler_result args kwargs finished
  = Some {| created := []; cancelled := [];
            returned := Raise (KeyError "raw_request") |}.
Proof.
  intros Hlen Hkw. unfold with_cancellation, guard_request.
  rewrite lookup_ge_None_2 by lia. by rewrite Hkw.
Qed.

Lemma with_cancellation_without_request_witness :
  with_cancellation (Return (OtherResult 7)) [PyObj 1] ∅ [handler_task]
  = Some {| created := []; cancelled := [];
            returned := Raise (KeyError "raw_request") |}.
Proof.
  apply (with_cancellation_without_request (Return (OtherResult 7)) [PyObj 1]
           ∅ [handler_task]); [cbn; lia | reflexivity].
Defined.

(** ** load_aware_call *)

(** X22.  In a tracked call whose handler returns something that is neither
    a [JSONResponse] nor a [StreamingResponse] ([None] included), the
    wrapper decrements the counter at once and returns the handler's result
    as it is; if the counter still holds the wrapper's own increment, it is
    back at its value from before the call. *)
Theorem load_aware_call_plain_result
    (func : list pyval → gmap string pyval → M app_state result)
    (args : list pyval) (kwargs : gmap string pyval)
    (st st' : app_state) (rid : nat) (r : result) (n : Z) :
  raw_request_of args kwargs = PyRequest rid →
  tracking_enabled st = true →
  func args kwargs (incremented st) = (inr r, st') →
  (∀ cls body bg, r ≠ Response cls body bg) →
  server_load_metrics st' = Some n →
  load_aware_call func args kwargs st
  = (inr r, set_server_load_metrics (n - 1) st')
  ∧ (st' = incremented st →
     load_aware_call func args kwargs st
     = (inr r, set_server_load_metrics (default 0 (server_load_metrics st)) st)).
Proof.
  intros Hreq Hon Hfunc Hplain Hn.
  rewrite (EntrypointsFacts.load_aware_call_request _ _ _ _ rid Hreq), Hon, Hfunc.
  assert (Hafter : after_handler (PyRequest rid) r st'
                   = (inr r, set_server_load_metrics (n - 1) st')).
  { destruct r as [| cls body bg | tag | body bg];
      [| by destruct (Hplain cls body bg) | |];
      cbn [after_handler];
      cbv [mbind M_bind mret M_ret iadd_server_load_metrics];
      rewrite Hn; by replace (n + -1) with (n - 1) by lia. }
  rewrite Hafter. split; [reflexivity |].
  intros ->. unfold incremented in Hn |- *.
  cbn [server_load_metrics set_server_load_metrics] in Hn |- *.
  injection Hn as <-.
  by replace (default 0 (server_load_metrics st) + 1 - 1)
    with (default 0 (server_load_metrics st)) by lia.
Qed.

Lemma load_aware_call_plain_result_witness :
  load_aware_call (λ _ _, mret RNone) [] {["raw_request" := PyRequest 0]}
    tracking_on
  = (inr RNone, tracking_on).
Proof.
  refine (proj2 (load_aware_call_plain_result (λ _ _, mret RNone) []
                   {["raw_request" := PyRequest 0]} tracking_on
                   (incremented tracking_on) 0 RNone 1 _ _ _ _ _) _);
    try (vm_compute; reflexivity).
  intros cls body bg. discriminate.
Defined.

(** The background stops at the first task that raises: when the tasks of
    the handler do not all return, the tasks after them are never called and
    the state is left as it was. *)
Lemma call_tasks_first_failure (tasks rest : list BackgroundTask)
    (st : app_state) :
  Forall (λ t, func t ≠ decrement_server_load_fn) tasks →
  ¬ Forall returns_quietly tasks →
  ∃ e, call_tasks (tasks ++ rest) st = (inl e, st).
Proof.
  induction 1 as [| t tasks Ht _ IH]; intros Hnot.
  - destruct Hnot. constructor.
  - cbn [app call_tasks]. cbv [mbind M_bind]. unfold call_task.
    destruct (func t) as [| tag | tag e] eqn:Hf; [done | | by exists e].
    apply IH. intros Hall. apply Hnot. constructor; [| exact Hall].
    unfold returns_quietly. by rewrite Hf.
Qed.

(** X23.  A tracked call that returns a [JSONResponse] or
    [StreamingResponse] leaves the counter incremented; the handler and the
    tasks it attached are taken not to touch the counter.  What running the
    background of the returned response does afterwards depends on those
    tasks.  If each of them returns, the decrement task is reached and the
    counter is back at its value from before the call (0 for a counter the
    call created).  If one of them raises, the background ends there with an
    exception, [decrement_server_load] is not called, and the counter keeps
    the increment. *)
Theorem load_aware_call_then_background
    (handler_func : list pyval → gmap string pyval → M app_state result)
    (args : list pyval) (kwargs : gmap string pyval)
    (st : app_state) (rid : nat)
    (cls : response_class) (body : nat) (bg : background) :
  raw_request_of args kwargs = PyRequest rid →
  tracking_enabled st = true →
  handler_func args kwargs (incremented st)
    = (inr (Response cls body bg), incremented st) →
  Forall (λ t, func t ≠ decrement_server_load_fn) (tasks_of bg) →
  ∃ bg',
    load_aware_call handler_func args kwargs st
      = (inr (Response cls body bg'), incremented st)
    ∧ (Forall returns_quietly (tasks_of bg) →
       run_background bg' (incremented st)
       = (inr tt,
          set_server_load_metrics (default 0 (server_load_metrics st)) st))
    ∧ (¬ Forall returns_quietly (tasks_of bg) →
       ∃ e, run_background bg' (incremented st) = (inl e, incremented st)).
Proof.
  intros Hreq Hon Hfunc Husers.
  rewrite (EntrypointsFacts.load_aware_call_request _ _ _ _ rid Hreq), Hon, Hfunc.
  exists (add_decrement_task (PyRequest rid) bg). split; [reflexivity |].
  unfold run_background.
  assert (Htasks : tasks_of (add_decrement_task (PyRequest rid) bg)
                   = tasks_of bg ++ [decrement_task (PyRequest rid)]).
  { destruct bg as [| [f a k] | tasks]; reflexivity. }
  rewrite Htasks. split.
  - intros Hquiet.
    rewrite (EntrypointsFacts.call_tasks_users _ _ _ Hquiet).
    cbn [call_tasks call_task decrement_task func task_args].
    cbv [mbind M_bind mret M_ret decrement_server_load app_state_of
         iadd_server_load_metrics incremented].
    cbn [server_load_metrics set_server_load_metrics enable_server_load_tracking].
    by replace (default 0 (server_load_metrics st) + 1 + -1)
      with (default 0 (server_load_metrics st)) by lia.
  - intros Hnot. by apply call_tasks_first_failure.
Qed.

(** A response whose second task raises: the first task and the failing one
    are called, the decrement after them is not. *)
Lemma load_aware_call_then_background_witness :
  ∃ bg' e,
    load_aware_call
      (λ _ _, mret (Response JSONResponse 3
                      (BackgroundTasks
                         [log_task;
                          mkBackgroundTask (failing_callable 3 (OtherError true 7))
                                           [] []])))
      [] {["raw_request" := PyRequest 0]} tracking_on
      = (inr (Response JSONResponse 3 bg'), incremented tracking_on)
    ∧ run_background bg' (incremented tracking_on)
      = (inl e, incremented tracking_on).
Proof.
  assert (Hreq : raw_request_of [] {["raw_request" := PyRequest 0]}
                 = PyRequest 0) by (vm_compute; reflexivity).
  assert (Hon : tracking_enabled tracking_on = true) by reflexivity.
  assert (Husers : Forall (λ t, func t ≠ decrement_server_load_fn)
                     [log_task;
                      mkBackgroundTask (failing_callable 3 (OtherError true 7))
                                       [] []])
    by (repeat constructor; discriminate).
  destruct (load_aware_call_then_background
              (λ _ _, mret (Response JSONResponse 3
                              (BackgroundTasks
                                 [log_task;
                                  mkBackgroundTask
                                    (failing_callable 3 (OtherError true 7))
                                    [] []])))
              [] {["raw_request" := PyRequest 0]} tracking_on 0
              JSONResponse 3
              (BackgroundTasks
                 [log_task;
                  mkBackgroundTask (failing_callable 3 (OtherError true 7))
                                   [] []])
              Hreq Hon eq_refl Husers)
    as (bg' & Hcall & _ & Hfails).
  destruct Hfails as [e He].
  - intros Hquiet. apply Forall_cons in Hquiet as [_ Hquiet].
    apply Forall_cons in Hquiet as [Hquiet _]. exact Hquiet.
  - by exists bg', e.
Defined.

(** X24.  The order of the two decorators matters.  If the function that
    [load_aware_call] wraps is itself a [with_cancellation] wrapper, and the
    client disconnects before the handler finishes (while the tracked call
    awaits, the watcher runs its disconnect branch, and the guard returns
    [None]), then the counter is decremented twice for one increment: by the
    watcher, and by [load_aware_call] for the [None] it got back.  It ends
    one below its value from before the call. *)
Theorem load_aware_call_around_guard_decrements_twice
    (args : list pyval) (kwargs : gmap string pyval)
    (st : app_state) (rid : nat) :
  raw_request_of args kwargs = PyRequest rid →
  tracking_enabled st = true →
  load_aware_call (λ _ _, modify on_disconnect;; mret RNone) args kwargs st
  = (inr RNone,
     set_server_load_metrics (default 0 (server_load_metrics st) - 1) st).
Proof.
  intros Hreq Hon.
  rewrite (EntrypointsFacts.load_aware_call_request _ _ _ _ rid Hreq), Hon.
  cbv [mbind M_bind mret M_ret modify].
  rewrite EntrypointsFacts.on_disconnect_cases.
  unfold tracking_enabled in Hon. unfold incremented.
  destruct st as [[[|] |] m]; try discriminate.
  cbn [enable_server_load_tracking server_load_metrics set_server_load_metrics
       after_handler].
  cbv [mbind M_bind mret M_ret iadd_server_load_metrics].
  cbn [enable_server_load_tracking server_load_metrics set_server_load_metrics].
  by replace (default 0 m + 1 - 1 + -1) with (default 0 m - 1) by lia.
Qed.

Lemma load_aware_call_around_guard_decrements_twice_witness :
  load_aware_call (λ _ _, modify on_disconnect;; mret RNone) []
    {["raw_request" := PyRequest 0]} tracking_on
  = (inr RNone, set_server_load_metrics (-1) tracking_on).
Proof.
  refine (load_aware_call_around_guard_decrements_twice []
            {["raw_request" := PyRequest 0]} tracking_on 0 _ _);
    vm_compute; reflexivity.
Defined.

(** ** listen_for_disconnect *)

(** X25.  Whatever messages arrive, the watcher decrements the counter at
    most once and changes nothing else: it has returned exactly when one of
    the messages is a disconnect, the state is then the one its disconnect
    branch leaves, and otherwise the state is untouched.  Messages after the
    first disconnect play no part. *)
Theorem listen_for_disconnect_at_most_once
    (messages : list message) (st : app_state) :
  listen_for_disconnect messages st
  = if bool_decide (Exists (λ m, msg_type m = "http.disconnect") messages)
    then (Finished, on_disconnect st)
    else (Suspended, st).
Proof.
  induction messages as [| m messages IH]; cbn [listen_for_disconnect].
  - rewrite bool_decide_eq_false_2; [reflexivity |]. by intros H; inv H.
  - destruct (String.eqb_spec (msg_type m) "http.disconnect") as [Heq | Hne].
    + rewrite bool_decide_eq_true_2; [reflexivity |]. by left.
    + rewrite IH. case_bool_decide as Hrest.
      * rewrite bool_decide_eq_true_2; [reflexivity |]. by right.
      * rewrite bool_decide_eq_false_2; [reflexivity |].
        intros H; inv H; contradiction.
Qed.

(** ** The server with tracking disabled *)

Lemma on_disconnect_untracked (st : app_state) :
  tracking_enabled st = false → on_disconnect st = st.
Proof. intros Hoff. unfold on_disconnect. by rewrite Hoff. Qed.

Lemma step_untracked (ev : event) (s s' : server) :
  tracking_enabled (state s) = false →
  map_Forall (λ _ r, untracked r) (requests s) →
  plain_event ev →
  step ev s = Some s' →
  state s' = state s ∧ map_Forall (λ _ r, untracked r) (requests s').
Proof.
  intros Hoff Hreqs Hplain Hstep.
  destruct ev as [rid | rid o | rid m | rid | rid]; cbn [step] in Hstep.
  - (* Arrive *)
    destruct (requests s !! rid) as [r |] eqn:Hr; [discriminate |].
    rewrite (EntrypointsFacts.load_aware_enter_request _ _ _ rid
               (EntrypointsFacts.route_request rid)), Hoff in Hstep.
    injection Hstep as <-. cbn [state requests]. split; [reflexivity |].
    apply map_Forall_insert_2; [| exact Hreqs]. by split.
  - (* HandlerEnds *)
    destruct (requests s !! rid) as [r |] eqn:Hr; [| discriminate].
    cbn [mbind option_bind] in Hstep.
    pose proof (Hreqs rid r Hr) as [Hh Hg].
    destruct r as [h l g f]. cbn [handler listener guard finalized] in *.
    destruct h as [mode | |]; try discriminate. subst mode.
    destruct o as [r | e]; cbn [load_aware_resume] in Hstep;
      injection Hstep as <-; cbn [state requests];
      (split; [reflexivity |]);
      (apply map_Forall_insert_2; [| exact Hreqs]);
      (split; cbn [handler guard outcome_of response_background];
       [| exact Hg]); [| done].
    destruct r as [| cls body bg | tag | body bg];
      cbn [background_of from_option]; try done; exact Hplain.
  - (* Receive *)
    destruct (requests s !! rid) as [r |] eqn:Hr; [| discriminate].
    cbn [mbind option_bind] in Hstep.
    pose proof (Hreqs rid r Hr) as [Hh Hg].
    destruct r as [h l g f]. cbn [handler listener guard finalized] in *.
    destruct l; try discriminate.
    cbn [listen_for_disconnect] in Hstep.
    rewrite (on_disconnect_untracked _ Hoff) in Hstep.
    destruct (String.eqb (msg_type m) "http.disconnect");
      injection Hstep as <-; cbn [state requests];
      (split; [reflexivity |]);
      (apply map_Forall_insert_2; [| exact Hreqs]); by split.
  - (* GuardResumes *)
    destruct (requests s !! rid) as [r |] eqn:Hr; [| discriminate].
    cbn [mbind option_bind] in Hstep.
    pose proof (Hreqs rid r Hr) as [Hh Hg].
    rewrite EntrypointsFacts.with_cancellation_route in Hstep.
    destruct r as [h l g f]. cbn [handler listener guard finalized] in *.
    destruct g; [discriminate |].
    destruct h as [mode | o |], l; cbn [mbind option_bind] in Hstep;
      try discriminate; subst;
      cbn [cancelled returned task_result handler load_aware_resume snd raise]
        in Hstep;
      repeat (case_decide as Hin; [| try (exfalso; apply Hin; set_solver)]);
      try (exfalso; set_solver);
      injection Hstep as <-; cbn [state requests];
      (split; [reflexivity |]);
      (apply map_Forall_insert_2; [| exact Hreqs]); by split.
  - (* Finalize *)
    destruct (requests s !! rid) as [r |] eqn:Hr; [| discriminate].
    cbn [mbind option_bind] in Hstep.
    pose proof (Hreqs rid r Hr) as [Hh Hg].
    destruct r as [h l g f]. cbn [handler listener guard finalized] in *.
    destruct (g ≫= response_background) as [bg |] eqn:Hbg; [| discriminate].
    destruct f; [discriminate |].
    cbn [from_option] in Hg.
    pose proof (EntrypointsFacts.call_tasks_state _ (state s) Hg) as Hst.
    unfold run_background in Hstep.
    destruct (call_tasks (tasks_of bg) (state s)) as [res st1].
    cbn [snd] in Hst. subst st1.
    injection Hstep as <-. cbn [state requests]. split; [reflexivity |].
    apply map_Forall_insert_2; [| exact Hreqs].
    split; cbn [handler guard]; [exact Hh | by rewrite Hbg].
Qed.

(** X26.  On a server whose tracking is disabled, serving requests never
    touches the application state: through arrivals, handler results and
    failures, disconnects, cancellations and the background tasks of
    responses, the state stays exactly as it was (no counter is created,
    none is changed).  Responses are taken to carry only tasks of their
    handlers, none that calls [decrement_server_load]. *)
Theorem tracking_disabled_state_untouched
    (evs : list event) (st : app_state) (s : server) :
  tracking_enabled st = false →
  Forall plain_event evs →
  run evs (mkServer st ∅) = Some s →
  state s = st.
Proof.
  intros Hoff Hplain.
  assert (Hgen : ∀ s0, state s0 = st →
            map_Forall (λ _ r, untracked r) (requests s0) →
            run evs s0 = Some s → state s = st).
  { induction Hplain as [| ev evs Hev _ IH]; intros s0 Hst Hreqs Hrun.
    - injection Hrun as <-. exact Hst.
    - cbn [run] in Hrun.
      destruct (step ev s0) as [s1 |] eqn:Hstep; [| discriminate].
      cbn [mbind option_bind] in Hrun.
      destruct (step_untracked ev s0 s1) as [Hst1 Hreqs1]; try done.
      { by rewrite Hst. }
      apply (IH s1); [congruence | exact Hreqs1 | exact Hrun]. }
  apply (Hgen (mkServer st ∅)); [reflexivity | apply map_Forall_empty].
Qed.

Lemma tracking_disabled_state_untouched_witness :
  ∃ s,
    run [Arrive 0; Arrive 1; Receive 1 disconnect;
         HandlerEnds 0 (Return (Response JSONResponse 3 (SingleTask log_task)));
         GuardResumes 1; GuardResumes 0; Finalize 0]
        (mkServer tracking_off ∅) = Some s
    ∧ state s = tracking_off.
Proof.
  eexists. split; [vm_compute; reflexivity |].
  refine (tracking_disabled_state_untouched
            [Arrive 0; Arrive 1; Receive 1 disconnect;
             HandlerEnds 0 (Return (Response JSONResponse 3 (SingleTask log_task)));
             GuardResumes 1; GuardResumes 0; Finalize 0]
            tracking_off _ _ _ _).
  - reflexivity.
  - repeat constructor. discriminate.
  - vm_compute. reflexivity.
Defined.

End MoreFacts.
